(** * Verification of kodi_addon_checker/check_artwork.py

    A shallow embedding of the artwork checker.  The checker walks the five
    art roles of an addon (icon, fanart, screenshot, banner, clearlogo),
    resolves the image references of each role from addon.xml, looks the
    files up on disk, opens them and applies the per-role rule; it then
    opens every loose image of the file index.  Everything it finds is
    appended to a report.

    The embedding keeps the shape of the Python code: the report is state that
    is threaded through every call, [IOError] is an exception that
    [try_except] catches, and the collaborators that live outside this module
    (the file system, PIL, [has_transparency], [relative_path], the
    [KodiVersion] constructor) are the fields of one record, [Env]. *)

From Stdlib Require Import String Ascii List ZArith Bool Lia DecimalString.
Import ListNotations.

Open Scope string_scope.
Open Scope Z_scope.

(** ** record.py and report.py: the diagnostics and their sink *)

(** Modelled from the spec: the severities [INFORMATION], [WARNING] and
    [PROBLEM] that record.py exports. *)
Inductive Severity := INFORMATION | WARNING | PROBLEM.

(** Modelled from the spec: [Record(log_level, message)] of record.py, a
    severity and a message. *)
Record KRecord := mkRecord { log_level : Severity; message : string }.

(** Modelled from the spec: the [Report] of report.py, an append-only sink;
    it is the list of the records in the order in which [add] received
    them. *)
Definition Report := list KRecord.

(** ** The collaborators *)

(** What this module reads of a PIL image: [im.size], and a mode for
    [has_transparency] to look at. *)
Record Image := mkImage { size : Z * Z; mode : string }.

(** An element of the parsed addon.xml, as far as the module looks at it:
    [image.text] is [None] for an element without text. *)
Record Element := mkElement { text : option string }.

(** [parsed_xml]: the module only calls [findall] on it. *)
Record ElementTree := mkTree { findall : string -> list Element }.

(** One record of [file_index]: [file["name"]] and [file["path"]]. *)
Record FileRecord := mkFile { name : string; path : string }.

(** The functions the module calls but does not define, taken as
    parameters: the file system and PIL, [has_transparency] and
    [relative_path] of common.py, and the constructor of KodiVersion.py. *)
Record Env := mkEnv {
  (** [os.path.isfile] *)
  isfile : string -> bool;
  (** [PIL.Image.open]; [None] stands for the [IOError] it raises.  Other
      exceptions of PIL (such as [DecompressionBombError]), which
      [except IOError] does not catch, are outside this model. *)
  image_open : string -> option Image;
  (** [common.has_transparency], for an image whose pixels load; that it
      may raise while loading them is outside this model. *)
  has_transparency : Image -> bool;
  (** [common.relative_path] *)
  relative_path : string -> string;
  (** [KodiVersion(name)], as a position in the order of the releases *)
  KodiVersion : string -> Z
}.

(** ** State, exceptions and the monad of the checker *)

(** The file-system calls the checker makes, in order.  The source keeps no
    such log; it is recorded here so that one can say which files were
    touched. *)
Inductive Access :=
| IsFile (p : string)
| Open (p : string).

Record State := mkState { report : Report; accesses : list Access }.

Definition fresh : State := mkState [] [].

Inductive Exception := IOError.

Inductive Outcome (A : Type) :=
| Returned (a : A)
| Raised (e : Exception).
Arguments Returned {A} a.
Arguments Raised {A} e.

Definition M (A : Type) := State -> Outcome A * State.

Definition ret {A} (a : A) : M A := fun s => (Returned a, s).

Definition bind {A B} (m : M A) (f : A -> M B) : M B :=
  fun s => match m s with
           | (Returned a, s') => f a s'
           | (Raised e, s') => (Raised e, s')
           end.

Notation "x <- m ;; k" := (bind m (fun x => k))
  (at level 61, m at next level, right associativity).
Notation "m ;;; k" := (bind m (fun _ => k))
  (at level 61, right associativity).

(** [try: body except IOError: handler] *)
Definition try_except {A} (body : M A) (handler : M A) : M A :=
  fun s => match body s with
           | (Raised IOError, s') => handler s'
           | r => r
           end.

(** [for x in l: body(x)] *)
Fixpoint for_each {A} (l : list A) (body : A -> M unit) : M unit :=
  match l with
  | [] => ret tt
  | x :: l' => body x ;;; for_each l' body
  end.

(** Modelled from the spec: [report.add(record)] of report.py appends the
    record to the sink. *)
Definition report_add (r : KRecord) : M unit :=
  fun s => (Returned tt, mkState (report s ++ [r])%list (accesses s)).

Definition os_path_isfile (env : Env) (p : string) : M bool :=
  fun s => (Returned (isfile env p), mkState (report s) (accesses s ++ [IsFile p])%list).

Definition Image_open (env : Env) (p : string) : M Image :=
  fun s => (match image_open env p with
            | Some im => Returned im
            | None => Raised IOError
            end, mkState (report s) (accesses s ++ [Open p])%list).

(** The state a computation ends in, and what it returned. *)
Definition exec {A} (m : M A) (s : State) : State := snd (m s).
Definition outcome {A} (m : M A) (s : State) : Outcome A := fst (m s).

(** ** Strings: what the module uses of Python's [str], [os.path] and [%] *)

(** [sub in s] *)
Fixpoint str_in (sub s : string) : bool :=
  prefix sub s ||
  match s with
  | EmptyString => false
  | String _ s' => str_in sub s'
  end.

(** [s.endswith(suf)] *)
Fixpoint endswith (s suf : string) : bool :=
  (s =? suf)%string ||
  match s with
  | EmptyString => false
  | String _ s' => endswith s' suf
  end.

(** [s.rfind(c)] for a one-character [c]: the last index of [c], or -1. *)
Fixpoint rfind (s : string) (c : ascii) : Z :=
  match s with
  | EmptyString => -1
  | String a s' =>
      let r := rfind s' c in
      if 0 <=? r then r + 1
      else if Ascii.eqb a c then 0 else -1
  end.

(** [s[i:]] and [s[:i]] for [0 <= i]. *)
Definition slice_from (s : string) (i : Z) : string :=
  substring (Z.to_nat i) (String.length s - Z.to_nat i) s.
Definition slice_to (s : string) (i : Z) : string :=
  substring 0 (Z.to_nat i) s.

(** [posixpath.join(a, b)] *)
Definition os_path_join (a b : string) : string :=
  if prefix "/" b then b
  else if (a =? "")%string || endswith a "/" then a ++ b
  else a ++ "/" ++ b.

(** The [while filenameIndex < dotIndex] loop of [genericpath._splitext]:
    [n] is [dotIndex - filenameIndex]; the answer is whether a character
    other than a dot occurs in [p[filenameIndex:dotIndex]]. *)
Fixpoint splitext_scan (p : string) (filenameIndex : nat) (n : nat) : bool :=
  match n with
  | O => false
  | S n' =>
      match get filenameIndex p with
      | Some c => if Ascii.eqb c "." then splitext_scan p (S filenameIndex) n' else true
      | None => true
      end
  end.

(** [os.path.splitext(p)] (posixpath) *)
Definition os_path_splitext (p : string) : string * string :=
  let sepIndex := rfind p "/" in
  let dotIndex := rfind p "." in
  if (sepIndex <? dotIndex) &&
     splitext_scan p (Z.to_nat (sepIndex + 1)) (Z.to_nat (dotIndex - (sepIndex + 1)))
  then (slice_to p dotIndex, slice_from p dotIndex)
  else (p, "").

(** ["%s" % n] and ["%d" % n] for an integer *)
Definition str_of_int (n : Z) : string := NilZero.string_of_int (Z.to_int n).

(** ["%sx%s" % (w, h)] *)
Definition fmt_size (wh : Z * Z) : string :=
  str_of_int (fst wh) ++ "x" ++ str_of_int (snd wh).

(** [sep.join(l)] *)
Fixpoint join (sep : string) (l : list string) : string :=
  match l with
  | [] => ""
  | [x] => x
  | x :: l' => x ++ sep ++ join sep l'
  end.

(** [(w, h) in sizes] *)
Definition size_eqb (a b : Z * Z) : bool :=
  (fst a =? fst b) && (snd a =? snd b).
Definition size_in (wh : Z * Z) (sizes : list (Z * Z)) : bool :=
  existsb (size_eqb wh) sizes.

(** [x in l] for strings *)
Definition string_in (x : string) (l : list string) : bool :=
  existsb (String.eqb x) l.

(** ** Regular expressions: what the module uses of Python's [re] *)

Definition newline : ascii := "010"%char.

Inductive regex :=
| Lit (l : string)          (** literal characters, [\.] included *)
| AnyStar                   (** [.*]: any characters but newlines *)
| Alt (a b : regex)         (** [a|b] *)
| Cat (a b : regex)         (** [ab] *)
| NotAhead (a : regex)      (** [(?!a)] *)
| EndOfString.              (** [$]: the end, or before a final newline *)

(** The rest of [s] after the literal [l], if [s] starts with it. *)
Fixpoint lit_rest (l s : string) : option string :=
  match l, s with
  | EmptyString, _ => Some s
  | String a l', String b s' => if Ascii.eqb a b then lit_rest l' s' else None
  | String _ _, EmptyString => None
  end.

(** [.*] followed by the continuation [k], over every split point. *)
Fixpoint any_star (s : string) (k : string -> bool) : bool :=
  match s with
  | EmptyString => k s
  | String c s' => (if Ascii.eqb c newline then false else any_star s' k) || k s
  end.

(** A backtracking matcher: [k] receives what is left of the subject. *)
Fixpoint re_run (r : regex) (s : string) (k : string -> bool) : bool :=
  match r with
  | Lit l => match lit_rest l s with Some rest => k rest | None => false end
  | AnyStar => any_star s k
  | Alt a b => re_run a s k || re_run b s k
  | Cat a b => re_run a s (fun s' => re_run b s' k)
  | NotAhead a => negb (re_run a s (fun _ => true)) && k s
  | EndOfString => ((s =? "") || (s =? String newline ""))%string && k s
  end.

(** [re.match(r, s) is not None]: anchored at the start, not at the end. *)
Definition re_match (r : regex) (s : string) : bool :=
  re_run r s (fun _ => true).

(** ** check_artwork.py *)

(** [r"(?!fanart\.jpg|icon\.png).*\.(png|jpg|jpeg|gif)$"] *)
Definition loose_image_re : regex :=
  Cat (NotAhead (Alt (Lit "fanart.jpg") (Lit "icon.png")))
      (Cat AnyStar
           (Cat (Lit ".")
                (Cat (Alt (Lit "png") (Alt (Lit "jpg") (Alt (Lit "jpeg") (Lit "gif"))))
                     EndOfString))).

(** The type of the check callbacks [image_check_cb(report, im, filepath,
    width, height)]. *)
Definition Callback := Image -> string -> Z -> Z -> M unit.

(** The [for addon_type in skip_addon_types] loop of [_assests]: [true] when
    it is left through [break], [false] when it runs to its [else]. *)
Fixpoint skip_loop (skip_addon_types : list string) (addon_path : string) : bool :=
  match skip_addon_types with
  | [] => false
  | addon_type :: rest =>
      if str_in addon_type addon_path then true else skip_loop rest addon_path
  end.

Definition _assests (image_type : string) (parsed_xml : ElementTree) (addon_path : string)
  : bool * list (option string) :=
  let images := map text (findall parsed_xml ("./extension/assets/" ++ image_type)) in
  let fallback := false in
  match images with
  | [] =>
      if (image_type =? "icon")%string then (true, images ++ [Some "icon.png"])%list
      else if (image_type =? "fanart")%string then
        let skip_addon_types := [".module."; "metadata."; "context."; ".language."] in
        if skip_loop skip_addon_types addon_path then (fallback, images)
        else (true, images ++ [Some "fanart.jpg"])%list
      else (fallback, images)
  | _ :: _ => (fallback, images)
  end.

Definition _check_icon (env : Env) : Callback := fun im filepath width height =>
  let fileextension := snd (os_path_splitext filepath) in
  (if negb (fileextension =? ".png")%string then
     report_add (mkRecord PROBLEM
       ("Icon should be in the png format, provided icon is " ++ fileextension ++ "."))
   else ret tt) ;;;
  (if has_transparency env im then
     report_add (mkRecord PROBLEM "Icon should be solid. It has transparency.")
   else ret tt) ;;;
  let icon_sizes := [(256, 256); (512, 512)] in
  if negb (size_in (width, height) icon_sizes) then
    report_add (mkRecord PROBLEM
      ("Icon should have either 256x256 or 512x512 but it has " ++ fmt_size (width, height)))
  else
    report_add (mkRecord INFORMATION ("Icon dimensions are fine " ++ fmt_size (width, height))).

Definition _check_fanart (env : Env) : Callback := fun im filepath width height =>
  let fileextension := snd (os_path_splitext filepath) in
  (if negb (string_in fileextension [".jpg"; ".jpeg"]) then
     report_add (mkRecord PROBLEM
       ("Fanart should be in the jpeg format, provided fanart is " ++ fileextension ++ "."))
   else ret tt) ;;;
  let fanart_sizes := [(1280, 720); (1920, 1080); (3840, 2160)] in
  let fanart_sizes_str := join " or " (map fmt_size fanart_sizes) in
  if negb (size_in (width, height) fanart_sizes) then
    report_add (mkRecord PROBLEM
      ("Fanart should have either " ++ fanart_sizes_str ++ " but it has "
       ++ fmt_size (width, height)))
  else
    report_add (mkRecord INFORMATION ("Fanart dimensions are fine " ++ fmt_size (width, height))).

Definition _check_banner (env : Env) : Callback := fun im filepath width height =>
  let fileextension := snd (os_path_splitext filepath) in
  (if negb (string_in fileextension [".jpg"; ".jpeg"]) then
     report_add (mkRecord PROBLEM
       ("Banner should be in the jpeg format, provided banner is " ++ fileextension ++ "."))
   else ret tt) ;;;
  (if has_transparency env im then
     report_add (mkRecord PROBLEM "Banner should be solid. It has transparency.")
   else ret tt) ;;;
  let required_banner_size := (1000, 185) in
  if negb (size_eqb (width, height) required_banner_size) then
    report_add (mkRecord PROBLEM
      ("Banner should have 1000x185 but it has " ++ fmt_size (width, height)))
  else
    report_add (mkRecord INFORMATION ("Banner dimensions are fine " ++ fmt_size (width, height))).

Definition _check_clearlogo (env : Env) : Callback := fun im filepath width height =>
  let fileextension := snd (os_path_splitext filepath) in
  (if negb (fileextension =? ".png")%string then
     report_add (mkRecord PROBLEM
       ("Clearlogo should be in the png format, provided clearlogo is " ++ fileextension ++ "."))
   else ret tt) ;;;
  (if negb (has_transparency env im) then
     report_add (mkRecord PROBLEM "Clearlogo should have transparency. It is solid.")
   else ret tt) ;;;
  let clearlogo_sizes := [(400, 155); (800, 310)] in
  let clearlogo_sizes_str := join " or " (map fmt_size clearlogo_sizes) in
  if negb (size_in (width, height) clearlogo_sizes) then
    report_add (mkRecord PROBLEM
      ("Clearlogo should have either " ++ clearlogo_sizes_str ++ " but it has "
       ++ fmt_size (width, height)))
  else
    report_add (mkRecord INFORMATION
      ("Clearlogo dimensions are fine " ++ fmt_size (width, height))).

Definition _check_screenshot (env : Env) : Callback := fun im filepath width height =>
  let '(filename, fileextension) := os_path_splitext filepath in
  (if negb (string_in fileextension [".jpg"; ".jpeg"]) then
     report_add (mkRecord PROBLEM
       ("Screenshot should be in the jpeg format, " ++ filename ++ " is " ++ fileextension ++ "."))
   else ret tt) ;;;
  (if has_transparency env im then
     report_add (mkRecord PROBLEM
       ("Screenshot should be solid. " ++ filename ++ " has transparency."))
   else ret tt) ;;;
  let screenshot_sizes := [(1280, 720); (1920, 1080)] in
  let screenshot_sizes_str := join " or " (map fmt_size screenshot_sizes) in
  if negb (size_in (width, height) screenshot_sizes) then
    report_add (mkRecord PROBLEM
      ("Screenshot should have either " ++ screenshot_sizes_str ++ " but " ++ filename
       ++ " has " ++ fmt_size (width, height)))
  else
    report_add (mkRecord INFORMATION
      ("Screenshot " ++ filename ++ " dimensions are fine " ++ fmt_size (width, height))).

(** The body of the [for image in images] loop of [_check_image_type]. *)
Definition _check_image_type_body (env : Env) (image_type : string)
    (image_check_cb : Callback) (addon_path : string) (kodi_version : Z)
    (fallback : bool) (image : option string) : M unit :=
  match image with
  | Some (String _ _ as image) =>
      let filepath := os_path_join addon_path image in
      is_file <- os_path_isfile env filepath ;;
      if is_file then
        report_add (mkRecord INFORMATION ("Image " ++ image_type ++ " exists")) ;;;
        (if fallback && (KodiVersion env "krypton" <=? kodi_version) then
           report_add (mkRecord PROBLEM
             ("Image " ++ image_type ++ " should be explicitly declared in addon.xml <assets>."))
         else ret tt) ;;;
        try_except
          (im <- Image_open env filepath ;;
           let '(width, height) := size im in
           image_check_cb im filepath width height)
          (report_add (mkRecord PROBLEM
             ("Could not open image, is the file corrupted? " ++ relative_path env filepath)))
      else if fallback then
        report_add (mkRecord INFORMATION ("You might want to add a " ++ image_type))
      else
        report_add (mkRecord PROBLEM (image_type ++ " does not exist at specified path."))
  | _ =>
      report_add (mkRecord WARNING ("Empty image tag found for " ++ image_type))
  end.

Definition _check_image_type (env : Env) (asset : string * (Env -> Callback))
    (parsed_xml : ElementTree) (addon_path : string) (kodi_version : Z) : M unit :=
  let image_type := fst asset in
  let image_check_cb := snd asset env in
  let '(fallback, images) := _assests image_type parsed_xml addon_path in
  for_each images
    (_check_image_type_body env image_type image_check_cb addon_path kodi_version fallback).

Definition art_assets : list (string * (Env -> Callback)) :=
  [ ("icon", _check_icon);
    ("fanart", _check_fanart);
    ("screenshot", _check_screenshot);
    ("banner", _check_banner);
    ("clearlogo", _check_clearlogo) ].

(** The body of the [for file in file_index] loop of [check_artwork]. *)
Definition check_artwork_body (env : Env) (file : FileRecord) : M unit :=
  if re_match loose_image_re (name file) then
    let image_path := os_path_join (path file) (name file) in
    try_except
      (Image_open env image_path ;;; ret tt)
      (report_add (mkRecord PROBLEM
         ("Could not open image, is the file corrupted ? " ++ relative_path env image_path)))
  else ret tt.

Definition check_artwork (env : Env) (addon_path : string) (parsed_xml : ElementTree)
    (file_index : list FileRecord) (kodi_version : Z) : M unit :=
  for_each art_assets
    (fun asset => _check_image_type env asset parsed_xml addon_path kodi_version) ;;;
  for_each file_index (check_artwork_body env).

(** * The vocabulary of the properties *)

(** [s] starts with [p]: the reading of [prefix] (and of [str.startswith]). *)
Definition starts_with (p s : string) : Prop := exists rest, s = p ++ rest.

(** [sub] occurs in [s]: the reading of Python's [sub in s]. *)
Definition contains (sub s : string) : Prop := exists pre post, s = pre ++ sub ++ post.

Fixpoint no_newline (s : string) : bool :=
  match s with
  | EmptyString => true
  | String c s' => negb (Ascii.eqb c newline) && no_newline s'
  end.

(** The names the loose-image pattern accepts, in words: the name does not
    start with [fanart.jpg] or [icon.png], and it is a stem without newlines,
    a dot, one of the four extensions and then nothing or one final
    newline. *)
Definition loose_image_name (n : string) : Prop :=
  ~ starts_with "fanart.jpg" n /\ ~ starts_with "icon.png" n /\
  exists stem ext tail,
    n = stem ++ "." ++ ext ++ tail /\ no_newline stem = true /\
    In ext ["png"; "jpg"; "jpeg"; "gif"] /\
    (tail = "" \/ tail = String newline "").

(** [s] extended by what [d] holds. *)
Definition app_state (s d : State) : State :=
  mkState (report s ++ report d)%list (accesses s ++ accesses d)%list.

(** [m] never reads the state: from every [s] it ends with outcome [o] and
    has appended [d]. *)
Definition emits {A} (m : M A) (o : Outcome A) (d : State) : Prop :=
  forall s, m s = (o, app_state s d).

(** A computation that returns from every state. *)
Definition returns {A} (m : M A) : Prop := forall s, exists a, outcome m s = Returned a.

(** The records an existing file gets before it is opened. *)
Definition exists_records (env : Env) (image_type : string) (kodi_version : Z)
    (fallback : bool) : Report :=
  mkRecord INFORMATION ("Image " ++ image_type ++ " exists")
  :: (if fallback && (KodiVersion env "krypton" <=? kodi_version)
      then [mkRecord PROBLEM
              ("Image " ++ image_type ++ " should be explicitly declared in addon.xml <assets>.")]
      else []).

(** The loop of [_check_image_type] over the entries [l] of a role. *)
Definition entries (env : Env) (asset : string * (Env -> Callback))
    (parsed_xml : ElementTree) (addon_path : string) (kodi_version : Z)
    (l : list (option string)) : M unit :=
  for_each l
    (_check_image_type_body env (fst asset) (snd asset env) addon_path kodi_version
       (fst (_assests (fst asset) parsed_xml addon_path))).

(** The addon types for which no fanart is expected: the path contains one of
    the four markers. *)
Definition skipped_addon_type (addon_path : string) : Prop :=
  exists marker,
    In marker [".module."; "metadata."; "context."; ".language."] /\
    contains marker addon_path.

(** A rule of the table, as far as dimensions go: how the role is written in
    messages, the accepted sizes, and whether the messages name the file. *)
Record Rule := mkRule { title : string; sizes : list (Z * Z); names_file : bool }.

(** The sizes are [icon_sizes], [fanart_sizes], [screenshot_sizes],
    [required_banner_size] and [clearlogo_sizes] of the five checks. *)
Definition rule_of (role : string) : Rule :=
  if (role =? "icon")%string then mkRule "Icon" [(256, 256); (512, 512)] false
  else if (role =? "fanart")%string then
    mkRule "Fanart" [(1280, 720); (1920, 1080); (3840, 2160)] false
  else if (role =? "screenshot")%string then mkRule "Screenshot" [(1280, 720); (1920, 1080)] true
  else if (role =? "banner")%string then mkRule "Banner" [(1000, 185)] false
  else mkRule "Clearlogo" [(400, 155); (800, 310)] false.

Definition accepted_sizes (role : string) : list (Z * Z) := sizes (rule_of role).

(** The dimension diagnostic of a role: an INFORMATION for an accepted size,
    otherwise a PROBLEM that lists the accepted sizes joined by "or" and the
    actual size. *)
Definition dimension_record (role filepath : string) (wh : Z * Z) : KRecord :=
  let rule := rule_of role in
  let filename := fst (os_path_splitext filepath) in
  if size_in wh (sizes rule) then
    mkRecord INFORMATION
      (title rule ++ " "
       ++ (if names_file rule
           then filename ++ " dimensions are fine " ++ fmt_size wh
           else "dimensions are fine " ++ fmt_size wh))
  else
    mkRecord PROBLEM
      (title rule ++ " should have "
       ++ (match sizes rule with [_] => "" | _ => "either " end)
       ++ join " or " (map fmt_size (sizes rule))
       ++ " but " ++ (if names_file rule then filename else "it") ++ " has " ++ fmt_size wh).

(** What a rule asks of the transparency of an image. *)
Inductive Opacity := MustBeSolid | MustHaveTransparency | Unconstrained.

(** The other columns of the rule table: the accepted extensions, how the
    format is called in messages, and the transparency requirement. *)
Record Requirement :=
  mkRequirement { extensions : list string; format_name : string; opacity : Opacity }.

(** The extensions and the polarity of the transparency test of the five
    checks. *)
Definition requirement_of (role : string) : Requirement :=
  if (role =? "icon")%string then mkRequirement [".png"] "png" MustBeSolid
  else if (role =? "fanart")%string then mkRequirement [".jpg"; ".jpeg"] "jpeg" Unconstrained
  else if (role =? "screenshot")%string then mkRequirement [".jpg"; ".jpeg"] "jpeg" MustBeSolid
  else if (role =? "banner")%string then mkRequirement [".jpg"; ".jpeg"] "jpeg" MustBeSolid
  else mkRequirement [".png"] "png" MustHaveTransparency.

(** The format diagnostic of a role: nothing for an accepted extension,
    otherwise one PROBLEM. *)
Definition format_records (role filepath : string) : Report :=
  let rule := rule_of role in
  let filename := fst (os_path_splitext filepath) in
  let fileextension := snd (os_path_splitext filepath) in
  if string_in fileextension (extensions (requirement_of role)) then []
  else [mkRecord PROBLEM
          (title rule ++ " should be in the " ++ format_name (requirement_of role)
           ++ " format, "
           ++ (if names_file rule then filename ++ " is " ++ fileextension ++ "."
               else "provided " ++ role ++ " is " ++ fileextension ++ "."))].

(** The transparency diagnostic of a role for an image that is, or is not,
    [transparent]: nothing when the requirement is met or there is none,
    otherwise one PROBLEM. *)
Definition transparency_records (role : string) (transparent : bool) (filepath : string)
  : Report :=
  let rule := rule_of role in
  let filename := fst (os_path_splitext filepath) in
  match opacity (requirement_of role) with
  | MustBeSolid =>
      if transparent
      then [mkRecord PROBLEM
              (title rule ++ " should be solid. "
               ++ (if names_file rule then filename else "It") ++ " has transparency.")]
      else []
  | MustHaveTransparency =>
      if transparent then []
      else [mkRecord PROBLEM (title rule ++ " should have transparency. It is solid.")]
  | Unconstrained => []
  end.

(** [r] is a dimension diagnostic of the role for the file: the one the role
    gives for some size. *)
Definition is_dimension_record (role filepath : string) (r : KRecord) : Prop :=
  exists wh, r = dimension_record role filepath wh.

(** Two environments that answer every question alike. *)
Definition same_env (env1 env2 : Env) : Prop :=
  (forall p, isfile env1 p = isfile env2 p) /\
  (forall p, image_open env1 p = image_open env2 p) /\
  (forall im, has_transparency env1 im = has_transparency env2 im) /\
  (forall p, relative_path env1 p = relative_path env2 p) /\
  (forall n, KodiVersion env1 n = KodiVersion env2 n).

(** Two manifests with the same elements under every path. *)
Definition same_tree (xml1 xml2 : ElementTree) : Prop :=
  forall p, findall xml1 p = findall xml2 p.

(** ** Reports of the parts of a run *)

(** [not image], for the text of an element. *)
Definition falsy (image : option string) : bool :=
  match image with
  | Some (String _ _) => false
  | _ => true
  end.

Definition Severity_eqb (a b : Severity) : bool :=
  match a, b with
  | INFORMATION, INFORMATION | WARNING, WARNING | PROBLEM, PROBLEM => true
  | _, _ => false
  end.

(** How many records of a report have the severity [lvl]. *)
Definition count_level (lvl : Severity) (r : Report) : nat :=
  length (filter (fun x => Severity_eqb (log_level x) lvl) r).

(** A report without a PROBLEM. *)
Definition clean (r : Report) : Prop := forall x, In x r -> log_level x <> PROBLEM.

(** What one role adds to a fresh state. *)
Definition role_state (env : Env) (asset : string * (Env -> Callback))
    (parsed_xml : ElementTree) (addon_path : string) (kodi_version : Z) : State :=
  exec (_check_image_type env asset parsed_xml addon_path kodi_version) fresh.

(** What one entry of a role adds to a fresh state. *)
Definition entry_state (env : Env) (asset : string * (Env -> Callback))
    (addon_path : string) (kodi_version : Z) (fallback : bool) (image : option string)
  : State :=
  exec (_check_image_type_body env (fst asset) (snd asset env) addon_path kodi_version
          fallback image) fresh.

(** What the loop over the file index adds to a fresh state. *)
Definition scan_state (env : Env) (file_index : list FileRecord) : State :=
  exec (for_each file_index (check_artwork_body env)) fresh.

(** The file-system calls of one entry: none for an empty entry, otherwise
    the lookup of the file and, when it is there, the attempt to open it. *)
Definition entry_accesses (env : Env) (addon_path : string) (image : option string)
  : list Access :=
  match image with
  | Some (String _ _ as image) =>
      let filepath := os_path_join addon_path image in
      IsFile filepath :: (if isfile env filepath then [Open filepath] else [])
  | _ => []
  end.

(** ** A sample addon *)

Module Demo.
Definition addon_path : string := "/addons/plugin.video.demo".

(** The files on disk; [None] is a file that PIL cannot open. *)
Definition disk : list (string * option Image) :=
  [ ("/addons/plugin.video.demo/icon.png", Some (mkImage (256, 256) "RGB"));
    ("/addons/plugin.video.demo/resources/fanart.jpg", None);
    ("/addons/plugin.video.demo/resources/shot.png", Some (mkImage (1280, 720) "RGBA"));
    ("/addons/plugin.video.demo/resources/icon.png.png", None);
    ("/addons/plugin.video.demo/resources/extra.png", None) ].

Fixpoint lookup {A} (k : string) (l : list (string * A)) : option A :=
  match l with
  | [] => None
  | (k', v) :: l' => if (k =? k')%string then Some v else lookup k l'
  end.

Definition env : Env :=
  {| isfile := fun p => match lookup p disk with Some _ => true | None => false end;
     image_open := fun p => match lookup p disk with Some o => o | None => None end;
     has_transparency := fun im => (mode im =? "RGBA")%string;
     relative_path := fun p => p;
     KodiVersion := fun n =>
       match lookup n [("gotham", 13); ("helix", 14); ("isengard", 15); ("jarvis", 16);
                       ("krypton", 17); ("leia", 18); ("matrix", 19)] with
       | Some v => v
       | None => 0
       end |}.

(** addon.xml declares a fanart and three screenshots, one of them empty;
    it declares no icon, banner or clearlogo. *)
Definition parsed_xml : ElementTree :=
  {| findall := fun p =>
       match lookup p
               [("./extension/assets/fanart", [mkElement (Some "resources/fanart.jpg")]);
                ("./extension/assets/screenshot",
                 [mkElement (Some "resources/shot.png"); mkElement None;
                  mkElement (Some "resources/missing.jpg")])] with
       | Some l => l
       | None => []
       end |}.

Definition file_index : list FileRecord :=
  [ mkFile "icon.png" "/addons/plugin.video.demo";
    mkFile "fanart.jpg" "/addons/plugin.video.demo/resources";
    mkFile "shot.png" "/addons/plugin.video.demo/resources";
    mkFile "icon.png.png" "/addons/plugin.video.demo/resources";
    mkFile "extra.png" "/addons/plugin.video.demo/resources";
    mkFile "addon.xml" "/addons/plugin.video.demo" ].

Definition leia : Z := KodiVersion env "leia".

(** An addon.xml without an assets section. *)
Definition no_assets : ElementTree := {| findall := fun _ => [] |}.

(** The same disk, listed by a second walk in the opposite order. *)
Definition env_again : Env :=
  {| isfile := fun p => match lookup p (rev disk) with Some _ => true | None => false end;
     image_open := fun p => match lookup p (rev disk) with Some o => o | None => None end;
     has_transparency := has_transparency env;
     relative_path := relative_path env;
     KodiVersion := KodiVersion env |}.
End Demo.

(** ** A second sample: a declared screenshot that cannot be opened *)

Module Gallery.
Definition addon_path : string := "/addons/plugin.image.gallery".

Definition env : Env :=
  {| isfile := fun p => (p =? "/addons/plugin.image.gallery/resources/shot.jpg")%string;
     image_open := fun _ => None;
     has_transparency := fun _ => false;
     relative_path := fun p => p;
     KodiVersion := fun _ => 17 |}.

Definition parsed_xml : ElementTree :=
  {| findall := fun p =>
       if (p =? "./extension/assets/screenshot")%string
       then [mkElement (Some "resources/shot.jpg")] else [] |}.

Definition file_index : list FileRecord :=
  [ mkFile "addon.xml" "/addons/plugin.image.gallery";
    mkFile "shot.jpg" "/addons/plugin.image.gallery/resources" ].
End Gallery.

(** * Properties *)

(** ** Strings *)

Lemma lit_rest_spec l : forall s rest, lit_rest l s = Some rest <-> s = l ++ rest.
Proof.
  induction l as [|a l IH]; intros s rest; simpl.
  - split; [intros [= ->]; reflexivity | intros ->; reflexivity].
  - destruct s as [|b s].
    + split; discriminate.
    + destruct (Ascii.eqb_spec a b) as [->|Hab].
      * rewrite IH. split; [intros ->; reflexivity | intros [= ->]; reflexivity].
      * split; [discriminate | intros [= E _]; congruence].
Qed.

Lemma prefix_starts_with p : forall s, prefix p s = true <-> starts_with p s.
Proof.
  unfold starts_with.
  induction p as [|a p IH]; intros s.
  - split; [intros _; exists s; reflexivity | intros _; destruct s; reflexivity].
  - destruct s as [|b s]; simpl.
    + split; [discriminate | intros [rest [=]]].
    + destruct (ascii_dec a b) as [->|Hab].
      * rewrite IH. split; intros [rest E]; exists rest; [rewrite E; reflexivity | now injection E].
      * split; [discriminate | intros [rest [= E _]]; congruence].
Qed.

Lemma str_in_contains sub : forall s, str_in sub s = true <-> contains sub s.
Proof.
  unfold contains.
  induction s as [|c s IH]; cbn [str_in].
  - rewrite orb_false_r, prefix_starts_with. unfold starts_with. split.
    + intros [rest E]. exists "", rest. exact E.
    + intros [pre [post E]]. destruct pre as [|a pre]; [|discriminate E].
      exists post. exact E.
  - rewrite orb_true_iff, IH, prefix_starts_with. unfold starts_with. split.
    + intros [[rest E] | [pre [post E]]].
      * exists "", rest. exact E.
      * exists (String c pre), post. simpl. now rewrite E.
    + intros [pre [post E]]. destruct pre as [|a pre].
      * left. exists post. exact E.
      * right. simpl in E. injection E as _ E. exists pre, post. exact E.
Qed.

Lemma any_star_spec k : forall s,
  any_star s k = true <->
  exists pre rest, s = pre ++ rest /\ no_newline pre = true /\ k rest = true.
Proof.
  induction s as [|c s IH]; simpl.
  - split.
    + intros H. exists "", "". auto.
    + intros [pre [rest [E [_ H]]]]. destruct pre; [|discriminate E].
      simpl in E. now subst rest.
  - rewrite orb_true_iff. split.
    + intros [H | H].
      * destruct (Ascii.eqb c newline) eqn:Ec; [discriminate|].
        apply IH in H. destruct H as [pre [rest [E [Hn H]]]].
        exists (String c pre), rest. simpl. rewrite Ec, Hn, E. auto.
      * exists "", (String c s). auto.
    + intros [pre [rest [E [Hn H]]]]. destruct pre as [|a pre].
      * right. simpl in E. now rewrite E.
      * left. simpl in E, Hn. injection E as -> E.
        apply andb_true_iff in Hn. destruct Hn as [Hc Hn].
        apply negb_true_iff in Hc. rewrite Hc. apply IH. exists pre, rest. auto.
Qed.

Lemma end_of_string_spec tail :
  ((tail =? "") || (tail =? String newline ""))%string = true <->
  tail = "" \/ tail = String newline "".
Proof.
  rewrite orb_true_iff, !String.eqb_eq. reflexivity.
Qed.

Lemma re_match_loose_image n :
  re_match loose_image_re n = true <-> loose_image_name n.
Proof.
  unfold re_match, loose_image_re, loose_image_name. cbn [re_run].
  rewrite andb_true_iff, negb_true_iff, any_star_spec.
  assert (Hpre : (match lit_rest "fanart.jpg" n with Some _ => true | None => false end
                  || match lit_rest "icon.png" n with Some _ => true | None => false end) = false
                 <-> ~ starts_with "fanart.jpg" n /\ ~ starts_with "icon.png" n).
  { rewrite orb_false_iff. unfold starts_with.
    split; intros [H1 H2]; split.
    - intros [rest E]. apply lit_rest_spec in E. rewrite E in H1. discriminate.
    - intros [rest E]. apply lit_rest_spec in E. rewrite E in H2. discriminate.
    - destruct (lit_rest "fanart.jpg" n) eqn:E; [|reflexivity].
      apply lit_rest_spec in E. exfalso. apply H1. eauto.
    - destruct (lit_rest "icon.png" n) eqn:E; [|reflexivity].
      apply lit_rest_spec in E. exfalso. apply H2. eauto. }
  rewrite Hpre. clear Hpre.
  split.
  - intros [[H1 H2] [stem [rest [E [Hn H]]]]]. split; [exact H1|]. split; [exact H2|].
    destruct (lit_rest "." rest) as [r1|] eqn:E1; [|discriminate].
    apply lit_rest_spec in E1. subst rest.
    repeat rewrite orb_true_iff in H.
    destruct H as [H | [H | [H | H]]].
    + destruct (lit_rest "png" r1) as [tail|] eqn:E2; [|discriminate].
      apply lit_rest_spec in E2. apply andb_true_iff in H. destruct H as [H _].
      apply end_of_string_spec in H.
      exists stem, "png", tail. subst. simpl. intuition auto.
    + destruct (lit_rest "jpg" r1) as [tail|] eqn:E2; [|discriminate].
      apply lit_rest_spec in E2. apply andb_true_iff in H. destruct H as [H _].
      apply end_of_string_spec in H.
      exists stem, "jpg", tail. subst. simpl. intuition auto.
    + destruct (lit_rest "jpeg" r1) as [tail|] eqn:E2; [|discriminate].
      apply lit_rest_spec in E2. apply andb_true_iff in H. destruct H as [H _].
      apply end_of_string_spec in H.
      exists stem, "jpeg", tail. subst. simpl. intuition auto.
    + destruct (lit_rest "gif" r1) as [tail|] eqn:E2; [|discriminate].
      apply lit_rest_spec in E2. apply andb_true_iff in H. destruct H as [H _].
      apply end_of_string_spec in H.
      exists stem, "gif", tail. subst. simpl. intuition auto.
  - intros [H1 [H2 [stem [ext [tail [E [Hn [Hext Htail]]]]]]]]. split; [auto|].
    exists stem, ("." ++ ext ++ tail). split; [exact E|]. split; [exact Hn|].
    apply end_of_string_spec in Htail.
    simpl in Hext.
    destruct Hext as [<- | [<- | [<- | [<- | []]]]]; cbn -[String.eqb];
      rewrite Htail; cbn; repeat rewrite orb_true_r; reflexivity.
Qed.

(** ** The monad: what a computation adds to the state *)

Lemma app_state_fresh_r s : app_state s fresh = s.
Proof. destruct s. unfold app_state. simpl. now rewrite !app_nil_r. Qed.

Lemma app_state_fresh_l d : app_state fresh d = d.
Proof. destruct d. reflexivity. Qed.

Lemma app_state_assoc s d1 d2 :
  app_state (app_state s d1) d2 = app_state s (app_state d1 d2).
Proof. unfold app_state. simpl. now rewrite !app_assoc. Qed.

Lemma emits_ret {A} (a : A) : emits (ret a) (Returned a) fresh.
Proof. intros s. unfold ret. now rewrite app_state_fresh_r. Qed.

Lemma returns_for_each {A} (body : A -> M unit) l :
  (forall x, returns (body x)) -> returns (for_each l body).
Proof.
  intros Hb. induction l as [|x l IH]; intros s; simpl.
  - exists tt. reflexivity.
  - unfold bind, outcome. destruct (Hb x s) as [a Ha]. unfold outcome in Ha.
    destruct (body x s) as [o s1]. simpl in Ha. subst o. apply IH.
Qed.

Lemma returns_unit (m : M unit) s : returns m -> m s = (Returned tt, exec m s).
Proof.
  intros H. destruct (H s) as [[] Ha]. unfold outcome, exec in *.
  destruct (m s) as [o s1]. simpl in *. now subst o.
Qed.

(** The loop runs its entries one after the other: the entries before [x],
    then [x], then the entries after it. *)
Lemma for_each_split {A} (body : A -> M unit) l1 x l2 s :
  (forall y, returns (body y)) ->
  for_each (l1 ++ x :: l2) body s =
  for_each l2 body (exec (body x) (exec (for_each l1 body) s)).
Proof.
  intros Hb. revert s. induction l1 as [|y l1 IH]; intros s; simpl.
  - unfold bind. rewrite (returns_unit (body x) s (Hb x)). reflexivity.
  - unfold bind at 1. rewrite (returns_unit (body y) s (Hb y)).
    rewrite IH. do 2 f_equal. unfold exec at 3. unfold bind.
    rewrite (returns_unit (body y) s (Hb y)). reflexivity.
Qed.

(** ** The rule checks *)

Ltac run_rule :=
  unfold bind, report_add, ret, exec, app_state;
  cbn [fst snd report accesses app];
  repeat match goal with
         | |- context [if ?b then _ else _] => destruct b
         end;
  cbn [fst snd report accesses app];
  rewrite ?app_nil_r, <- ?app_assoc; reflexivity.

Lemma emits_check_icon env im filepath width height :
  emits (_check_icon env im filepath width height) (Returned tt)
        (mkState (report (exec (_check_icon env im filepath width height) fresh)) []).
Proof. intros s. unfold _check_icon. run_rule. Qed.

Lemma emits_check_fanart env im filepath width height :
  emits (_check_fanart env im filepath width height) (Returned tt)
        (mkState (report (exec (_check_fanart env im filepath width height) fresh)) []).
Proof. intros s. unfold _check_fanart. run_rule. Qed.

Lemma emits_check_banner env im filepath width height :
  emits (_check_banner env im filepath width height) (Returned tt)
        (mkState (report (exec (_check_banner env im filepath width height) fresh)) []).
Proof. intros s. unfold _check_banner. run_rule. Qed.

Lemma emits_check_clearlogo env im filepath width height :
  emits (_check_clearlogo env im filepath width height) (Returned tt)
        (mkState (report (exec (_check_clearlogo env im filepath width height) fresh)) []).
Proof. intros s. unfold _check_clearlogo. run_rule. Qed.

Lemma emits_check_screenshot env im filepath width height :
  emits (_check_screenshot env im filepath width height) (Returned tt)
        (mkState (report (exec (_check_screenshot env im filepath width height) fresh)) []).
Proof.
  intros s. unfold _check_screenshot.
  destruct (os_path_splitext filepath) as [filename fileextension]. run_rule.
Qed.

(** Every rule of the table returns, touches no file, and only appends. *)
Lemma emits_art_assets asset env im filepath width height :
  In asset art_assets ->
  emits (snd asset env im filepath width height) (Returned tt)
        (mkState (report (exec (snd asset env im filepath width height) fresh)) []).
Proof.
  unfold art_assets. simpl.
  intros [<- | [<- | [<- | [<- | [<- | []]]]]]; simpl.
  - apply emits_check_icon.
  - apply emits_check_fanart.
  - apply emits_check_screenshot.
  - apply emits_check_banner.
  - apply emits_check_clearlogo.
Qed.

(** ** One entry of a role *)

Section Entry.
Variables (env : Env) (image_type : string) (image_check_cb : Callback)
          (addon_path : string) (kodi_version : Z) (fallback : bool).

Local Abbreviation body :=
  (_check_image_type_body env image_type image_check_cb addon_path kodi_version fallback).
Local Abbreviation found := (exists_records env image_type kodi_version fallback).

(** No exception leaves the body, whatever the rule check does. *)
Lemma body_returns image : returns (body image).
Proof.
  intros s. unfold _check_image_type_body, outcome.
  destruct image as [[|c r]|]; try (exists tt; reflexivity).
  unfold bind, os_path_isfile. destruct (isfile env _).
  - cbn [report_add]. 
    destruct (fallback && _); cbn [report_add ret];
      unfold try_except, bind, Image_open; destruct (image_open env _) as [im|];
      try (exists tt; reflexivity);
      destruct (size im) as [width height];
      match goal with
      | |- context [image_check_cb ?a ?b ?c ?d ?e] =>
          destruct (image_check_cb a b c d e) as [[[]|[]] s']
      end; exists tt; reflexivity.
  - destruct fallback; exists tt; reflexivity.
Qed.

Lemma body_empty image s :
  image = None \/ image = Some "" ->
  body image s =
  (Returned tt,
   mkState (report s ++ [mkRecord WARNING ("Empty image tag found for " ++ image_type)])%list
           (accesses s)).
Proof. intros [-> | ->]; reflexivity. Qed.

Lemma body_missing image s :
  image <> "" -> isfile env (os_path_join addon_path image) = false ->
  body (Some image) s =
  (Returned tt,
   mkState (report s ++
            [if fallback
             then mkRecord INFORMATION ("You might want to add a " ++ image_type)
             else mkRecord PROBLEM (image_type ++ " does not exist at specified path.")])%list
           (accesses s ++ [IsFile (os_path_join addon_path image)])%list).
Proof.
  intros Hne Hf. destruct image as [|c r]; [congruence|].
  unfold _check_image_type_body, bind, os_path_isfile. rewrite Hf.
  destruct fallback; reflexivity.
Qed.

Lemma body_corrupt image s :
  image <> "" -> isfile env (os_path_join addon_path image) = true ->
  image_open env (os_path_join addon_path image) = None ->
  body (Some image) s =
  (Returned tt,
   mkState (report s ++ found ++
            [mkRecord PROBLEM
               ("Could not open image, is the file corrupted? "
                ++ relative_path env (os_path_join addon_path image))])%list
           (accesses s ++ [IsFile (os_path_join addon_path image);
                           Open (os_path_join addon_path image)])%list).
Proof.
  intros Hne Hf Ho. destruct image as [|c r]; [congruence|].
  unfold _check_image_type_body, bind, os_path_isfile, found. rewrite Hf.
  cbn [report_add]. destruct (fallback && _); cbn [report_add ret];
    unfold try_except, bind, Image_open; rewrite Ho; unfold report_add;
    cbn [report accesses]; rewrite <- !app_assoc; reflexivity.
Qed.

Lemma body_decoded image im d s :
  image <> "" -> isfile env (os_path_join addon_path image) = true ->
  image_open env (os_path_join addon_path image) = Some im ->
  emits (image_check_cb im (os_path_join addon_path image) (fst (size im)) (snd (size im)))
        (Returned tt) (mkState d []) ->
  body (Some image) s =
  (Returned tt,
   mkState (report s ++ found ++ d)%list
           (accesses s ++ [IsFile (os_path_join addon_path image);
                           Open (os_path_join addon_path image)])%list).
Proof.
  intros Hne Hf Ho Hcb. destruct image as [|c r]; [congruence|].
  unfold _check_image_type_body, bind, os_path_isfile, found. rewrite Hf.
  cbn [report_add]. destruct (fallback && _); cbn [report_add ret];
    unfold try_except, bind, Image_open; rewrite Ho;
    destruct (size im) as [width height]; cbn [fst snd] in Hcb; rewrite Hcb;
    unfold app_state; cbn [report accesses]; rewrite ?app_nil_r, <- !app_assoc;
    reflexivity.
Qed.
End Entry.

(** ** One role *)

Lemma check_image_type_entries env asset parsed_xml addon_path kodi_version s :
  _check_image_type env asset parsed_xml addon_path kodi_version s =
  entries env asset parsed_xml addon_path kodi_version
          (snd (_assests (fst asset) parsed_xml addon_path)) s.
Proof.
  unfold _check_image_type, entries.
  destruct (_assests (fst asset) parsed_xml addon_path) as [fallback images].
  reflexivity.
Qed.

(** The entry [image] of a role is checked in the state the entries before it
    left, and the entries after it follow. *)
Lemma check_image_type_at env asset parsed_xml addon_path kodi_version l1 image l2 s :
  snd (_assests (fst asset) parsed_xml addon_path) = (l1 ++ image :: l2)%list ->
  _check_image_type env asset parsed_xml addon_path kodi_version s =
  entries env asset parsed_xml addon_path kodi_version l2
    (exec (_check_image_type_body env (fst asset) (snd asset env) addon_path kodi_version
             (fst (_assests (fst asset) parsed_xml addon_path)) image)
          (exec (entries env asset parsed_xml addon_path kodi_version l1) s)).
Proof.
  intros E. rewrite check_image_type_entries, E. unfold entries.
  apply for_each_split. intros y. apply body_returns.
Qed.

(** ** The resolver *)

Lemma skip_loop_spec l addon_path :
  skip_loop l addon_path = true <->
  exists marker, In marker l /\ contains marker addon_path.
Proof.
  induction l as [|t l IH]; simpl.
  - split; [discriminate | intros [m [[] _]]].
  - destruct (str_in t addon_path) eqn:E.
    + split; [|reflexivity]. intros _. exists t. split; [now left|].
      now apply str_in_contains.
    + rewrite IH. split.
      * intros [m [Hin Hc]]. exists m. auto.
      * intros [m [[<- | Hin] Hc]].
        -- apply str_in_contains in Hc. congruence.
        -- exists m. auto.
Qed.

(** C3: with no fanart declared, the resolver gives no path and no fallback
    when the addon path contains one of [.module.], [metadata.], [context.],
    [.language.], and otherwise the single fallback path [fanart.jpg]. *)
Theorem C3_fanart_fallback parsed_xml addon_path :
  findall parsed_xml "./extension/assets/fanart" = [] ->
  (skipped_addon_type addon_path ->
   _assests "fanart" parsed_xml addon_path = (false, [])) /\
  (~ skipped_addon_type addon_path ->
   _assests "fanart" parsed_xml addon_path = (true, [Some "fanart.jpg"])).
Proof.
  intros E. unfold _assests, skipped_addon_type. cbn [append]. rewrite E. cbn [map].
  change ("fanart" =? "icon")%string with false.
  change ("fanart" =? "fanart")%string with true. cbv iota.
  split; intros H.
  - apply skip_loop_spec in H. now rewrite H.
  - destruct (skip_loop _ addon_path) eqn:Es; [|reflexivity].
    apply skip_loop_spec in Es. contradiction.
Qed.

Lemma C3_fanart_fallback_witness :
  _assests "fanart" Demo.no_assets "/addons/metadata.tvdb" = (false, []) /\
  _assests "fanart" Demo.no_assets "/addons/plugin.video.demo" = (true, [Some "fanart.jpg"]).
Proof.
  split.
  - apply (proj1 (C3_fanart_fallback Demo.no_assets "/addons/metadata.tvdb" eq_refl)).
    exists "metadata.". split; [simpl; auto|]. exists "/addons/", "tvdb". reflexivity.
  - apply (proj2 (C3_fanart_fallback Demo.no_assets "/addons/plugin.video.demo" eq_refl)).
    intros H. apply skip_loop_spec in H. vm_compute in H. discriminate H.
Defined.

(** C4: with no declaration, the icon resolves to the single fallback path
    [icon.png]; screenshot, banner and clearlogo resolve to no path and no
    fallback, and checking such a role leaves the report as it was. *)
Theorem C4_roles_without_declarations env parsed_xml addon_path kodi_version role :
  findall parsed_xml ("./extension/assets/" ++ role) = [] ->
  (role = "icon" -> _assests role parsed_xml addon_path = (true, [Some "icon.png"])) /\
  (In role ["screenshot"; "banner"; "clearlogo"] ->
   _assests role parsed_xml addon_path = (false, []) /\
   forall cb s,
     _check_image_type env (role, cb) parsed_xml addon_path kodi_version s = (Returned tt, s)).
Proof.
  intros E. split.
  - intros ->. unfold _assests. rewrite E. reflexivity.
  - intros Hrole.
    assert (Ha : _assests role parsed_xml addon_path = (false, [])).
    { unfold _assests. rewrite E. cbn [map].
      simpl in Hrole. destruct Hrole as [<- | [<- | [<- | []]]]; reflexivity. }
    split; [exact Ha|]. intros cb s.
    unfold _check_image_type. cbn [fst snd]. rewrite Ha. reflexivity.
Qed.

Lemma C4_roles_without_declarations_witness :
  _assests "icon" Demo.parsed_xml Demo.addon_path = (true, [Some "icon.png"]) /\
  _assests "banner" Demo.parsed_xml Demo.addon_path = (false, []) /\
  report (exec (_check_image_type Demo.env ("banner", _check_banner) Demo.parsed_xml
                  Demo.addon_path Demo.leia) fresh) = [].
Proof.
  split; [|split].
  - apply (proj1 (C4_roles_without_declarations Demo.env Demo.parsed_xml Demo.addon_path
                    Demo.leia "icon" eq_refl)). reflexivity.
  - apply (proj2 (C4_roles_without_declarations Demo.env Demo.parsed_xml Demo.addon_path
                    Demo.leia "banner" eq_refl)). simpl; auto.
  - unfold exec.
    rewrite (proj2 (proj2 (C4_roles_without_declarations Demo.env Demo.parsed_xml
                             Demo.addon_path Demo.leia "banner" eq_refl)
                      (or_intror (or_introl eq_refl)))).
    reflexivity.
Defined.

(** ** The validator, entry by entry *)

Ltac rule_cases :=
  unfold bind, report_add, ret, exec;
  cbn [fst snd report accesses app];
  repeat match goal with
         | |- context [if ?b then _ else _] => destruct b
         end;
  cbn [fst snd report accesses app].

Ltac each_record :=
  let r := fresh "r" in
  let H := fresh "H" in
  intros r H; simpl in H;
  repeat match goal with
         | H : _ \/ _ |- _ => destruct H as [H | H]
         | H : False |- _ => destruct H
         end;
  subst r; reflexivity.

(** No record of a rule check starts like the records of the existence
    step, ["Image ..."]. *)
Lemma rule_records_head asset env im filepath width height :
  In asset art_assets ->
  forall r, In r (report (exec (snd asset env im filepath width height) fresh)) ->
            prefix "Im" (message r) = false.
Proof.
  unfold art_assets. simpl.
  intros [<- | [<- | [<- | [<- | [<- | []]]]]]; cbn [snd].
  - unfold _check_icon. rule_cases; each_record.
  - unfold _check_fanart. rule_cases; each_record.
  - unfold _check_screenshot.
    destruct (os_path_splitext filepath) as [filename fileextension].
    rule_cases; each_record.
  - unfold _check_banner. rule_cases; each_record.
  - unfold _check_clearlogo. rule_cases; each_record.
Qed.

(** Every entry of a role of the table returns and only appends. *)
Lemma emits_body asset env addon_path kodi_version fallback image :
  In asset art_assets ->
  emits (_check_image_type_body env (fst asset) (snd asset env) addon_path kodi_version
           fallback image)
        (Returned tt)
        (exec (_check_image_type_body env (fst asset) (snd asset env) addon_path
                 kodi_version fallback image) fresh).
Proof.
  intros Hin s.
  assert (Hempty : image = None \/ image = Some "" \/
                   exists p, image = Some p /\ p <> "").
  { destruct image as [p|]; [|auto].
    destruct (string_dec p "") as [->|Hne]; [auto|]. right. right. eauto. }
  destruct Hempty as [He | [He | [p [-> Hne]]]].
  - unfold exec. rewrite !body_empty by auto.
    unfold app_state. cbn [fst snd report accesses app]. now rewrite app_nil_r.
  - unfold exec. rewrite !body_empty by auto.
    unfold app_state. cbn [fst snd report accesses app]. now rewrite app_nil_r.
  - destruct (isfile env (os_path_join addon_path p)) eqn:Hf.
    + destruct (image_open env (os_path_join addon_path p)) as [im|] eqn:Ho.
      * pose proof (emits_art_assets asset env im (os_path_join addon_path p)
                      (fst (size im)) (snd (size im)) Hin) as Hcb.
        unfold exec at 1. rewrite !(body_decoded _ _ _ _ _ _ _ _ _ _ Hne Hf Ho Hcb).
        unfold app_state. cbn [fst snd report accesses app]. reflexivity.
      * unfold exec. rewrite !body_corrupt by assumption. reflexivity.
    + unfold exec. rewrite !body_missing by assumption. reflexivity.
Qed.

Lemma emits_entries asset env parsed_xml addon_path kodi_version l :
  In asset art_assets ->
  emits (entries env asset parsed_xml addon_path kodi_version l) (Returned tt)
        (exec (entries env asset parsed_xml addon_path kodi_version l) fresh).
Proof.
  intros Hin. unfold entries.
  induction l as [|x l IH]; simpl.
  - apply emits_ret.
  - intros s. unfold exec, bind.
    rewrite (emits_body asset env addon_path kodi_version _ x Hin s).
    rewrite (emits_body asset env addon_path kodi_version _ x Hin fresh).
    rewrite app_state_fresh_l.
    rewrite IH. rewrite (IH (exec _ fresh)). cbn [snd].
    now rewrite app_state_assoc.
Qed.

(** C5: an entry whose file exists gets the INFORMATION "Image <role>
    exists"; the PROBLEM asking for an explicit declaration follows it exactly
    when the role was resolved by fallback and the version is at least
    krypton.  [rest] is what opening the file and the rule check add; the
    PROBLEM is never among it. *)
Theorem C5_existing_file env asset parsed_xml addon_path kodi_version l1 image l2 s :
  In asset art_assets ->
  snd (_assests (fst asset) parsed_xml addon_path) = (l1 ++ Some image :: l2)%list ->
  image <> "" ->
  isfile env (os_path_join addon_path image) = true ->
  let fallback := fst (_assests (fst asset) parsed_xml addon_path) in
  let explicit :=
    mkRecord PROBLEM
      ("Image " ++ fst asset ++ " should be explicitly declared in addon.xml <assets>.") in
  exists rest,
    report (exec (_check_image_type env asset parsed_xml addon_path kodi_version) s) =
    (report (exec (entries env asset parsed_xml addon_path kodi_version l1) s)
     ++ [mkRecord INFORMATION ("Image " ++ fst asset ++ " exists")]
     ++ (if fallback && (KodiVersion env "krypton" <=? kodi_version) then [explicit] else [])
     ++ rest
     ++ report (exec (entries env asset parsed_xml addon_path kodi_version l2) fresh))%list
    /\ ~ In explicit rest.
Proof.
  intros Hin E Hne Hf fallback explicit.
  unfold exec at 1. rewrite (check_image_type_at _ _ _ _ _ _ _ _ _ E).
  rewrite (emits_entries asset env parsed_xml addon_path kodi_version l2 Hin).
  cbn [snd]. unfold app_state. cbn [report].
  set (before := exec (entries env asset parsed_xml addon_path kodi_version l1) s).
  fold fallback.
  destruct (image_open env (os_path_join addon_path image)) as [im|] eqn:Ho.
  - pose proof (emits_art_assets asset env im (os_path_join addon_path image)
                  (fst (size im)) (snd (size im)) Hin) as Hcb.
    exists (report (exec (snd asset env im (os_path_join addon_path image)
                            (fst (size im)) (snd (size im))) fresh)).
    split.
    + unfold exec at 1.
      rewrite (body_decoded _ _ _ _ _ _ _ _ _ _ Hne Hf Ho Hcb).
      cbn [snd report]. unfold exists_records. fold explicit.
      rewrite <- !app_assoc. reflexivity.
    + intros Hr. apply (rule_records_head asset env im _ _ _ Hin) in Hr.
      discriminate Hr.
  - exists [mkRecord PROBLEM
              ("Could not open image, is the file corrupted? "
               ++ relative_path env (os_path_join addon_path image))].
    split.
    + unfold exec at 1. rewrite (body_corrupt _ _ _ _ _ _ _ _ Hne Hf Ho).
      cbn [snd report]. unfold exists_records. fold explicit.
      rewrite <- !app_assoc. reflexivity.
    + intros [Hr | []]. discriminate Hr.
Qed.

Lemma C5_existing_file_witness :
  exists rest,
    report (exec (_check_image_type Demo.env ("icon", _check_icon) Demo.parsed_xml
                    Demo.addon_path Demo.leia) fresh) =
    ([] ++ [mkRecord INFORMATION "Image icon exists"]
        ++ [mkRecord PROBLEM "Image icon should be explicitly declared in addon.xml <assets>."]
        ++ rest ++ [])%list
    /\ ~ In (mkRecord PROBLEM "Image icon should be explicitly declared in addon.xml <assets>.")
            rest.
Proof.
  apply (C5_existing_file Demo.env ("icon", _check_icon) Demo.parsed_xml Demo.addon_path
           Demo.leia [] "icon.png" [] fresh).
  - simpl. auto.
  - reflexivity.
  - discriminate.
  - reflexivity.
Defined.

(** C6: an empty or absent entry adds exactly one WARNING and touches no
    file; an entry naming a missing file is looked up once and adds exactly
    one record, an INFORMATION under fallback and a PROBLEM otherwise.  In
    both cases the entries after it are checked next. *)
Theorem C6_empty_and_missing_entries env asset parsed_xml addon_path kodi_version
    l1 image l2 s :
  snd (_assests (fst asset) parsed_xml addon_path) = (l1 ++ image :: l2)%list ->
  let fallback := fst (_assests (fst asset) parsed_xml addon_path) in
  let before := exec (entries env asset parsed_xml addon_path kodi_version l1) s in
  (image = None \/ image = Some "" ->
   _check_image_type env asset parsed_xml addon_path kodi_version s =
   entries env asset parsed_xml addon_path kodi_version l2
     (mkState (report before
               ++ [mkRecord WARNING ("Empty image tag found for " ++ fst asset)])%list
              (accesses before))) /\
  (forall p, image = Some p -> p <> "" ->
   isfile env (os_path_join addon_path p) = false ->
   _check_image_type env asset parsed_xml addon_path kodi_version s =
   entries env asset parsed_xml addon_path kodi_version l2
     (mkState (report before
               ++ [if fallback
                   then mkRecord INFORMATION ("You might want to add a " ++ fst asset)
                   else mkRecord PROBLEM (fst asset ++ " does not exist at specified path.")])%list
              (accesses before ++ [IsFile (os_path_join addon_path p)])%list)).
Proof.
  intros E fallback before.
  rewrite (check_image_type_at _ _ _ _ _ _ _ _ _ E). fold before. fold fallback.
  split.
  - intros He. unfold exec at 1. rewrite body_empty by exact He. reflexivity.
  - intros p -> Hne Hf. unfold exec at 1. rewrite body_missing by assumption. reflexivity.
Qed.

Lemma C6_empty_and_missing_entries_witness :
  _check_image_type Demo.env ("screenshot", _check_screenshot) Demo.parsed_xml
    Demo.addon_path Demo.leia fresh =
  entries Demo.env ("screenshot", _check_screenshot) Demo.parsed_xml Demo.addon_path Demo.leia
    [Some "resources/missing.jpg"]
    (let before := exec (entries Demo.env ("screenshot", _check_screenshot) Demo.parsed_xml
                           Demo.addon_path Demo.leia [Some "resources/shot.png"]) fresh in
     mkState (report before ++ [mkRecord WARNING "Empty image tag found for screenshot"])%list
             (accesses before))
  /\
  _check_image_type Demo.env ("screenshot", _check_screenshot) Demo.parsed_xml
    Demo.addon_path Demo.leia fresh =
  entries Demo.env ("screenshot", _check_screenshot) Demo.parsed_xml Demo.addon_path Demo.leia
    []
    (let before := exec (entries Demo.env ("screenshot", _check_screenshot) Demo.parsed_xml
                           Demo.addon_path Demo.leia [Some "resources/shot.png"; None]) fresh in
     mkState (report before
              ++ [mkRecord PROBLEM "screenshot does not exist at specified path."])%list
             (accesses before
              ++ [IsFile "/addons/plugin.video.demo/resources/missing.jpg"])%list).
Proof.
  split.
  - apply (proj1 (C6_empty_and_missing_entries Demo.env ("screenshot", _check_screenshot)
                    Demo.parsed_xml Demo.addon_path Demo.leia
                    [Some "resources/shot.png"] None [Some "resources/missing.jpg"] fresh
                    eq_refl)).
    left. reflexivity.
  - apply (proj2 (C6_empty_and_missing_entries Demo.env ("screenshot", _check_screenshot)
                    Demo.parsed_xml Demo.addon_path Demo.leia
                    [Some "resources/shot.png"; None] (Some "resources/missing.jpg") [] fresh
                    eq_refl) "resources/missing.jpg").
    + reflexivity.
    + discriminate.
    + reflexivity.
Defined.

(** ** The icon rule *)

(** C8: the three checks of the icon rule are independent: each adds its
    record, or none, whatever the other two find.  A 300x300 transparent
    [.jpg] gets three PROBLEMs, for format, transparency and dimensions; an
    opaque 256x256 [.png] gets the INFORMATION "Icon dimensions are fine
    256x256" and no PROBLEM. *)
Theorem C8_icon_checks_independent env im filepath s :
  (forall width height,
     report (exec (_check_icon env im filepath width height) s) =
     (report s
      ++ (if (snd (os_path_splitext filepath) =? ".png")%string then []
          else [mkRecord PROBLEM
                  ("Icon should be in the png format, provided icon is "
                   ++ snd (os_path_splitext filepath) ++ ".")])
      ++ (if has_transparency env im
          then [mkRecord PROBLEM "Icon should be solid. It has transparency."]
          else [])
      ++ [dimension_record "icon" filepath (width, height)])%list) /\
  (snd (os_path_splitext filepath) = ".jpg" -> has_transparency env im = true ->
   report (exec (_check_icon env im filepath 300 300) s) =
   (report s
    ++ [mkRecord PROBLEM "Icon should be in the png format, provided icon is .jpg.";
        mkRecord PROBLEM "Icon should be solid. It has transparency.";
        mkRecord PROBLEM "Icon should have either 256x256 or 512x512 but it has 300x300"])%list) /\
  (snd (os_path_splitext filepath) = ".png" -> has_transparency env im = false ->
   report (exec (_check_icon env im filepath 256 256) s) =
   (report s ++ [mkRecord INFORMATION "Icon dimensions are fine 256x256"])%list).
Proof.
  split; [|split].
  - intros width height. unfold _check_icon, dimension_record.
    cbn [rule_of String.eqb Ascii.eqb Bool.eqb title sizes names_file].
    destruct (size_in (width, height) [(256, 256); (512, 512)]); cbn [negb];
      destruct (snd (os_path_splitext filepath) =? ".png")%string; cbn [negb];
      destruct (has_transparency env im);
      unfold bind, report_add, ret, exec; cbn [fst snd report accesses app];
      rewrite <- ?app_assoc; reflexivity.
  - intros Hext Ht. unfold _check_icon. rewrite Hext, Ht.
    unfold bind, report_add, ret, exec. cbn. rewrite <- !app_assoc. reflexivity.
  - intros Hext Ht. unfold _check_icon. rewrite Hext, Ht.
    unfold bind, report_add, ret, exec. cbn. reflexivity.
Qed.

Lemma C8_icon_checks_independent_witness :
  report (exec (_check_icon Demo.env (mkImage (300, 300) "RGBA")
                  "/addons/plugin.video.demo/icon.jpg" 300 300) fresh) =
  [mkRecord PROBLEM "Icon should be in the png format, provided icon is .jpg.";
   mkRecord PROBLEM "Icon should be solid. It has transparency.";
   mkRecord PROBLEM "Icon should have either 256x256 or 512x512 but it has 300x300"]
  /\
  report (exec (_check_icon Demo.env (mkImage (256, 256) "RGB")
                  "/addons/plugin.video.demo/icon.png" 256 256) fresh) =
  [mkRecord INFORMATION "Icon dimensions are fine 256x256"].
Proof.
  split.
  - apply (proj1 (proj2 (C8_icon_checks_independent Demo.env (mkImage (300, 300) "RGBA")
                           "/addons/plugin.video.demo/icon.jpg" fresh)));
      reflexivity.
  - apply (proj2 (proj2 (C8_icon_checks_independent Demo.env (mkImage (256, 256) "RGB")
                           "/addons/plugin.video.demo/icon.png" fresh)));
      reflexivity.
Defined.

(** ** The screenshot rule and transparency *)

Lemma screenshot_never_fallback parsed_xml addon_path :
  fst (_assests "screenshot" parsed_xml addon_path) = false.
Proof.
  unfold _assests.
  destruct (map text (findall parsed_xml _)); reflexivity.
Qed.

(** The screenshot check: the format record, the transparency record and
    the dimension record, in this order. *)
Lemma check_screenshot_report env im filepath width height :
  report (exec (_check_screenshot env im filepath width height) fresh) =
  ((if string_in (snd (os_path_splitext filepath)) [".jpg"; ".jpeg"] then []
    else [mkRecord PROBLEM
            ("Screenshot should be in the jpeg format, " ++ fst (os_path_splitext filepath)
             ++ " is " ++ snd (os_path_splitext filepath) ++ ".")])
   ++ (if has_transparency env im
       then [mkRecord PROBLEM
               ("Screenshot should be solid. " ++ fst (os_path_splitext filepath)
                ++ " has transparency.")]
       else [])
   ++ [dimension_record "screenshot" filepath (width, height)])%list.
Proof.
  unfold _check_screenshot, dimension_record.
  cbn [rule_of String.eqb Ascii.eqb Bool.eqb title sizes names_file].
  destruct (os_path_splitext filepath) as [fname fext]. cbn [fst snd].
  destruct (size_in (width, height) [(1280, 720); (1920, 1080)]); cbn [negb];
    destruct (string_in fext [".jpg"; ".jpeg"]); cbn [negb];
    destruct (has_transparency env im);
    unfold bind, report_add, ret, exec; cbn [fst snd report accesses app];
    reflexivity.
Qed.

(** A screenshot that exists, opens and has transparency: the run reports the
    transparency as a PROBLEM. *)
Lemma C1_screenshot_transparency_counterexample :
  isfile Demo.env (os_path_join Demo.addon_path "resources/shot.png") = true /\
  image_open Demo.env (os_path_join Demo.addon_path "resources/shot.png")
  = Some (mkImage (1280, 720) "RGBA") /\
  In (mkRecord PROBLEM
        "Screenshot should be solid. /addons/plugin.video.demo/resources/shot has transparency.")
     (report (exec (check_artwork Demo.env Demo.addon_path Demo.parsed_xml Demo.file_index
                      Demo.leia) fresh)).
Proof.
  split; [reflexivity|]. split; [reflexivity|].
  vm_compute. do 7 right. left. reflexivity.
Qed.

(** C1 (the transparency requirement of screenshots, as the code has it):
    the screenshot rule requires a solid image.  For a
    screenshot that exists and opens, the validator adds the PROBLEM
    "Screenshot should be solid. <file> has transparency." exactly when the
    image has transparency, between the format record (if any) and the
    dimension record. *)
Theorem C1_screenshot_must_be_solid env parsed_xml addon_path kodi_version
    l1 image l2 im s :
  snd (_assests "screenshot" parsed_xml addon_path) = (l1 ++ Some image :: l2)%list ->
  image <> "" ->
  isfile env (os_path_join addon_path image) = true ->
  image_open env (os_path_join addon_path image) = Some im ->
  let filepath := os_path_join addon_path image in
  let filename := fst (os_path_splitext filepath) in
  let fileextension := snd (os_path_splitext filepath) in
  let solid :=
    mkRecord PROBLEM ("Screenshot should be solid. " ++ filename ++ " has transparency.") in
  let format :=
    if string_in fileextension [".jpg"; ".jpeg"] then []
    else [mkRecord PROBLEM
            ("Screenshot should be in the jpeg format, " ++ filename ++ " is "
             ++ fileextension ++ ".")] in
  report (exec (_check_image_type env ("screenshot", _check_screenshot) parsed_xml
                  addon_path kodi_version) s) =
  (report (exec (entries env ("screenshot", _check_screenshot) parsed_xml addon_path
                   kodi_version l1) s)
   ++ [mkRecord INFORMATION "Image screenshot exists"]
   ++ format
   ++ (if has_transparency env im then [solid] else [])
   ++ [dimension_record "screenshot" filepath (size im)]
   ++ report (exec (entries env ("screenshot", _check_screenshot) parsed_xml addon_path
                      kodi_version l2) fresh))%list
  /\ ~ In solid format
  /\ solid <> dimension_record "screenshot" filepath (size im)
  /\ solid <> mkRecord INFORMATION "Image screenshot exists".
Proof.
  intros E Hne Hf Ho filepath filename fileextension solid format.
  assert (Hin : In ("screenshot", _check_screenshot) art_assets) by (simpl; auto).
  split; [|split; [|split]].
  - unfold exec at 1.
    rewrite (check_image_type_at env ("screenshot", _check_screenshot) _ _ _ _ _ _ _ E).
    rewrite (emits_entries _ env parsed_xml addon_path kodi_version l2 Hin).
    cbn [snd]. unfold app_state. cbn [report].
    pose proof (emits_art_assets _ env im (os_path_join addon_path image)
                  (fst (size im)) (snd (size im)) Hin) as Hcb.
    unfold exec at 1.
    rewrite (body_decoded _ _ _ _ _ _ _ _ _ _ Hne Hf Ho Hcb).
    cbn [fst snd report]. unfold exists_records.
    rewrite screenshot_never_fallback. cbn [andb].
    rewrite check_screenshot_report. rewrite <- surjective_pairing.
    repeat (rewrite <- ?app_assoc, <- ?app_comm_cons). reflexivity.
  - unfold format. destruct (string_in fileextension [".jpg"; ".jpeg"]).
    + intros [].
    + intros [H | []]. discriminate H.
  - unfold solid, dimension_record.
    cbn [rule_of String.eqb Ascii.eqb Bool.eqb title sizes names_file].
    destruct (size_in (size im) [(1280, 720); (1920, 1080)]); discriminate.
  - discriminate.
Qed.

Lemma C1_screenshot_must_be_solid_witness :
  report (exec (_check_image_type Demo.env ("screenshot", _check_screenshot) Demo.parsed_xml
                  Demo.addon_path Demo.leia) fresh) =
  [mkRecord INFORMATION "Image screenshot exists";
   mkRecord PROBLEM
     "Screenshot should be in the jpeg format, /addons/plugin.video.demo/resources/shot is .png.";
   mkRecord PROBLEM
     "Screenshot should be solid. /addons/plugin.video.demo/resources/shot has transparency.";
   mkRecord INFORMATION
     "Screenshot /addons/plugin.video.demo/resources/shot dimensions are fine 1280x720";
   mkRecord WARNING "Empty image tag found for screenshot";
   mkRecord PROBLEM "screenshot does not exist at specified path."].
Proof.
  apply (proj1 (C1_screenshot_must_be_solid Demo.env Demo.parsed_xml Demo.addon_path Demo.leia
                  [] "resources/shot.png" [None; Some "resources/missing.jpg"]
                  (mkImage (1280, 720) "RGBA") fresh
                  eq_refl ltac:(discriminate) eq_refl eq_refl)).
Defined.

(** ** The loose images *)

(** C2: the scan is meant to leave out the two files that the icon and the
    fanart role check, [icon.png] and [fanart.jpg].  Its pattern leaves out
    more: [icon.png.png] ends with [.png] and is neither of the two names,
    yet the scan does not open it.  Of two unreadable files in one directory,
    [icon.png.png] and [extra.png], only the second is opened and
    reported. *)
Lemma C2_prefixed_name_not_scanned :
  let file := mkFile "icon.png.png" "/addons/plugin.video.demo/resources" in
  let sibling := mkFile "extra.png" "/addons/plugin.video.demo/resources" in
  endswith (name file) ".png" = true /\
  name file <> "fanart.jpg" /\ name file <> "icon.png" /\
  image_open Demo.env (os_path_join (path file) (name file)) = None /\
  image_open Demo.env (os_path_join (path sibling) (name sibling)) = None /\
  for_each [file; sibling] (check_artwork_body Demo.env) fresh =
  (Returned tt,
   mkState [mkRecord PROBLEM
              "Could not open image, is the file corrupted ? /addons/plugin.video.demo/resources/extra.png"]
           [Open "/addons/plugin.video.demo/resources/extra.png"]).
Proof.
  cbv zeta. split; [reflexivity|]. split; [discriminate|]. split; [discriminate|].
  repeat split; reflexivity.
Qed.

(** What the scan does with a file index: it opens the files whose names the
    pattern accepts, in order, and adds one PROBLEM for each of them that
    [Image.open] answers with an [IOError]. *)
Lemma scan_trace env file_index s :
  let image_path := fun file => os_path_join (path file) (name file) in
  let matched := filter (fun file => re_match loose_image_re (name file)) file_index in
  let unreadable :=
    filter (fun file => match image_open env (image_path file) with
                        | Some _ => false
                        | None => true
                        end) matched in
  (forall file, In file matched <-> In file file_index /\ loose_image_name (name file)) /\
  for_each file_index (check_artwork_body env) s =
  (Returned tt,
   mkState (report s
            ++ map (fun file =>
                      mkRecord PROBLEM
                        ("Could not open image, is the file corrupted ? "
                         ++ relative_path env (image_path file)))
                   unreadable)%list
           (accesses s ++ map (fun file => Open (image_path file)) matched)%list).
Proof.
  cbv zeta. split.
  - intros file. rewrite filter_In, re_match_loose_image. reflexivity.
  - revert s. induction file_index as [|file l IH]; intros s.
    + simpl. unfold ret. destruct s. simpl. now rewrite !app_nil_r.
    + cbn [for_each filter]. unfold bind at 1. unfold check_artwork_body at 1.
      destruct (re_match loose_image_re (name file)).
      * unfold try_except, bind, Image_open. cbn [filter].
        destruct (image_open env (os_path_join (path file) (name file))) eqn:Ho;
          unfold ret, report_add; cbn iota beta; rewrite IH;
          cbn [filter map report accesses]; rewrite ?Ho; cbn [map];
          rewrite <- ?app_assoc; reflexivity.
      * unfold ret. rewrite IH. reflexivity.
Qed.

(** ** Determinism *)

Lemma bind_ext {A B} (m1 m2 : M A) (f1 f2 : A -> M B) s :
  (forall s, m1 s = m2 s) -> (forall a s, f1 a s = f2 a s) ->
  bind m1 f1 s = bind m2 f2 s.
Proof.
  intros Hm Hf. unfold bind. rewrite Hm.
  destruct (m2 s) as [[a|e] s1]; [apply Hf | reflexivity].
Qed.

Lemma try_except_ext {A} (b1 b2 h1 h2 : M A) s :
  (forall s, b1 s = b2 s) -> (forall s, h1 s = h2 s) ->
  try_except b1 h1 s = try_except b2 h2 s.
Proof.
  intros Hb Hh. unfold try_except. rewrite Hb.
  destruct (b2 s) as [[a|[]] s1]; [reflexivity | apply Hh].
Qed.

Lemma for_each_ext {A} (body1 body2 : A -> M unit) l s :
  (forall x s, body1 x s = body2 x s) ->
  for_each l body1 s = for_each l body2 s.
Proof.
  intros Hb. revert s. induction l as [|x l IH]; intros s; simpl.
  - reflexivity.
  - apply bind_ext; [apply Hb | intros _; apply IH].
Qed.

Lemma art_assets_ext asset env1 env2 im filepath width height s :
  In asset art_assets -> same_env env1 env2 ->
  snd asset env1 im filepath width height s = snd asset env2 im filepath width height s.
Proof.
  intros Hin (_ & _ & Ht & _ & _). unfold art_assets in Hin. simpl in Hin.
  destruct Hin as [<- | [<- | [<- | [<- | [<- | []]]]]]; cbn [snd].
  - unfold _check_icon. now rewrite Ht.
  - reflexivity.
  - unfold _check_screenshot. now rewrite Ht.
  - unfold _check_banner. now rewrite Ht.
  - unfold _check_clearlogo. now rewrite Ht.
Qed.

Lemma check_image_type_ext asset env1 env2 xml1 xml2 addon_path kodi_version s :
  In asset art_assets -> same_env env1 env2 -> same_tree xml1 xml2 ->
  _check_image_type env1 asset xml1 addon_path kodi_version s =
  _check_image_type env2 asset xml2 addon_path kodi_version s.
Proof.
  intros Hin Henv Hxml.
  assert (Ha : _assests (fst asset) xml1 addon_path = _assests (fst asset) xml2 addon_path).
  { unfold _assests. now rewrite Hxml. }
  unfold _check_image_type. rewrite Ha.
  destruct (_assests (fst asset) xml2 addon_path) as [fallback images].
  apply for_each_ext. clear s. intros image s.
  pose proof Henv as (Hf & Ho & _ & Hr & Hk).
  unfold _check_image_type_body. destruct image as [[|c r]|]; try reflexivity.
  apply bind_ext.
  - intros s0. unfold os_path_isfile. now rewrite Hf.
  - intros is_file s0. destruct is_file; [|reflexivity].
    apply bind_ext; [reflexivity|]. intros _ s1.
    apply bind_ext; [now rewrite Hk|]. intros _ s2.
    apply try_except_ext.
    + intros s3. apply bind_ext.
      * intros s4. unfold Image_open. now rewrite Ho.
      * intros im s4. destruct (size im) as [width height].
        now apply art_assets_ext.
    + intros s3. now rewrite Hr.
Qed.

(** C9: the run is a function of what the addon tree, the manifest, the file
    index and the version answer: two runs that start from a fresh report and
    get the same answers end with the same outcome and the same records, in
    the same order. *)
Theorem C9_deterministic env1 env2 xml1 xml2 addon_path file_index kodi_version :
  same_env env1 env2 -> same_tree xml1 xml2 ->
  check_artwork env1 addon_path xml1 file_index kodi_version fresh =
  check_artwork env2 addon_path xml2 file_index kodi_version fresh.
Proof.
  intros Henv Hxml. unfold check_artwork. apply bind_ext.
  - intros s. generalize (fun a (H : In a art_assets) => H).
    generalize art_assets at 1 3 4 as l.
    intros l Hl. revert s. induction l as [|asset l IH]; intros s; simpl.
    + reflexivity.
    + apply bind_ext.
      * intros s0. apply check_image_type_ext; auto. apply Hl. now left.
      * intros _ s0. apply IH. intros a Ha. apply Hl. now right.
  - intros _ s. apply for_each_ext. clear s. intros file s.
    pose proof Henv as (_ & Ho & _ & Hr & _).
    unfold check_artwork_body. destruct (re_match loose_image_re (name file)); [|reflexivity].
    apply try_except_ext.
    + intros s0. apply bind_ext; [|reflexivity]. intros s1. unfold Image_open. now rewrite Ho.
    + intros s0. now rewrite Hr.
Qed.

Lemma lookup_rev_disk p : Demo.lookup p (rev Demo.disk) = Demo.lookup p Demo.disk.
Proof.
  unfold Demo.disk. cbn [rev app Demo.lookup].
  repeat match goal with
         | |- context [(p =? ?k)%string] => destruct (String.eqb_spec p k); subst
         end;
    try reflexivity; discriminate.
Qed.

Lemma C9_deterministic_witness :
  check_artwork Demo.env Demo.addon_path Demo.parsed_xml Demo.file_index Demo.leia fresh =
  check_artwork Demo.env_again Demo.addon_path Demo.parsed_xml Demo.file_index Demo.leia fresh.
Proof.
  apply (C9_deterministic Demo.env Demo.env_again Demo.parsed_xml Demo.parsed_xml).
  - unfold same_env. repeat split; try reflexivity; intros p;
      unfold Demo.env_again, Demo.env; cbn [isfile image_open];
      now rewrite lookup_rev_disk.
  - unfold same_tree. reflexivity.
Defined.

(** * Further properties of the run *)

(** ** Composition *)

Lemma emits_seq {A} (m1 : M unit) (m2 : M A) d1 o d2 :
  emits m1 (Returned tt) d1 -> emits m2 o d2 ->
  emits (m1 ;;; m2) o (app_state d1 d2).
Proof.
  intros H1 H2 s. unfold bind. rewrite H1, H2. now rewrite app_state_assoc.
Qed.

Lemma emits_fresh {A} (m : M A) o d : emits m o d -> exec m fresh = d.
Proof. intros H. unfold exec. rewrite H. apply app_state_fresh_l. Qed.

(** A loop adds what its rounds add, in order. *)
Lemma emits_for_each {A} (body : A -> M unit) l :
  (forall x, emits (body x) (Returned tt) (exec (body x) fresh)) ->
  emits (for_each l body) (Returned tt)
        (fold_right (fun x acc => app_state (exec (body x) fresh) acc) fresh l).
Proof.
  intros Hb. induction l as [|x l IH]; simpl.
  - apply emits_ret.
  - apply emits_seq; [apply Hb | exact IH].
Qed.

Lemma emits_check_image_type asset env parsed_xml addon_path kodi_version :
  In asset art_assets ->
  emits (_check_image_type env asset parsed_xml addon_path kodi_version) (Returned tt)
        (role_state env asset parsed_xml addon_path kodi_version).
Proof.
  intros Hin s. unfold role_state, exec.
  rewrite !check_image_type_entries.
  rewrite (emits_entries asset env parsed_xml addon_path kodi_version _ Hin s).
  rewrite (emits_entries asset env parsed_xml addon_path kodi_version _ Hin fresh).
  cbn [snd]. now rewrite app_state_fresh_l.
Qed.

Lemma emits_check_artwork_body env file :
  emits (check_artwork_body env file) (Returned tt)
        (exec (check_artwork_body env file) fresh).
Proof.
  intros s. unfold check_artwork_body, exec.
  destruct (re_match loose_image_re (name file)).
  - unfold try_except, bind, Image_open, ret, report_add.
    destruct (image_open env _); unfold app_state, fresh;
      cbn [snd report accesses app]; rewrite ?app_nil_r; reflexivity.
  - unfold ret. cbn [snd]. now rewrite app_state_fresh_r.
Qed.

Lemma emits_scan env file_index :
  emits (for_each file_index (check_artwork_body env)) (Returned tt)
        (scan_state env file_index).
Proof.
  intros s.
  pose proof (emits_for_each (check_artwork_body env) file_index
                (emits_check_artwork_body env)) as H.
  unfold scan_state. rewrite (emits_fresh _ _ _ H). apply H.
Qed.

Lemma emits_roles env parsed_xml addon_path kodi_version :
  emits (for_each art_assets
           (fun asset => _check_image_type env asset parsed_xml addon_path kodi_version))
        (Returned tt)
        (fold_right (fun asset acc =>
                       app_state (role_state env asset parsed_xml addon_path kodi_version) acc)
                    fresh art_assets).
Proof.
  assert (H : forall l, (forall a, In a l -> In a art_assets) ->
    emits (for_each l
             (fun asset => _check_image_type env asset parsed_xml addon_path kodi_version))
          (Returned tt)
          (fold_right (fun asset acc =>
                         app_state (role_state env asset parsed_xml addon_path kodi_version)
                                   acc) fresh l)).
  { induction l as [|a l IH]; intros Hl; simpl.
    - apply emits_ret.
    - apply emits_seq.
      + apply emits_check_image_type. apply Hl. now left.
      + apply IH. intros b Hb. apply Hl. now right. }
  apply H. auto.
Qed.

(** X1: the run only appends.  From whatever state it starts, it keeps every
    record and every logged call that was there, and adds after them exactly
    what it adds to a fresh state. *)
Theorem check_artwork_appends env addon_path parsed_xml file_index kodi_version s :
  exec (check_artwork env addon_path parsed_xml file_index kodi_version) s =
  app_state s (exec (check_artwork env addon_path parsed_xml file_index kodi_version) fresh).
Proof.
  pose proof (emits_seq _ _ _ _ _
                (emits_roles env parsed_xml addon_path kodi_version)
                (emits_scan env file_index)) as H.
  fold (check_artwork env addon_path parsed_xml file_index kodi_version) in H.
  rewrite (emits_fresh _ _ _ H). unfold exec. now rewrite H.
Qed.

(** X2: the report of a run is the reports of the five roles, in the order
    icon, fanart, screenshot, banner, clearlogo, followed by the report of the
    loose-image scan; each part is what that part reports on its own. *)
Theorem check_artwork_report_order env addon_path parsed_xml file_index kodi_version :
  let role := fun asset => report (role_state env asset parsed_xml addon_path kodi_version) in
  report (exec (check_artwork env addon_path parsed_xml file_index kodi_version) fresh) =
  (role ("icon", _check_icon) ++ role ("fanart", _check_fanart)
   ++ role ("screenshot", _check_screenshot) ++ role ("banner", _check_banner)
   ++ role ("clearlogo", _check_clearlogo)
   ++ report (scan_state env file_index))%list.
Proof.
  cbv zeta.
  pose proof (emits_seq _ _ _ _ _
                (emits_roles env parsed_xml addon_path kodi_version)
                (emits_scan env file_index)) as H.
  fold (check_artwork env addon_path parsed_xml file_index kodi_version) in H.
  rewrite (emits_fresh _ _ _ H). unfold art_assets, app_state.
  cbn [fold_right report accesses fresh]. rewrite app_nil_r.
  rewrite <- !app_assoc. reflexivity.
Qed.

(** ** The entries of a role, one by one *)

Lemma fold_app_state_report {A} (d : A -> State) l :
  report (fold_right (fun x acc => app_state (d x) acc) fresh l) =
  flat_map (fun x => report (d x)) l.
Proof.
  induction l as [|x l IH]; simpl; [reflexivity|]. now rewrite IH.
Qed.

Lemma fold_app_state_accesses {A} (d : A -> State) l :
  accesses (fold_right (fun x acc => app_state (d x) acc) fresh l) =
  flat_map (fun x => accesses (d x)) l.
Proof.
  induction l as [|x l IH]; simpl; [reflexivity|]. now rewrite IH.
Qed.

(** What a role adds is what its entries add, in the order of the entries. *)
Lemma role_state_entries asset env parsed_xml addon_path kodi_version :
  In asset art_assets ->
  role_state env asset parsed_xml addon_path kodi_version =
  fold_right
    (fun image acc =>
       app_state (entry_state env asset addon_path kodi_version
                    (fst (_assests (fst asset) parsed_xml addon_path)) image) acc)
    fresh (snd (_assests (fst asset) parsed_xml addon_path)).
Proof.
  intros Hin. unfold role_state, exec. rewrite check_image_type_entries.
  unfold entries.
  pose proof (emits_for_each
                (_check_image_type_body env (fst asset) (snd asset env) addon_path
                   kodi_version (fst (_assests (fst asset) parsed_xml addon_path)))
                (snd (_assests (fst asset) parsed_xml addon_path))
                (fun image => emits_body asset env addon_path kodi_version _ image Hin)) as H.
  rewrite H. cbn [snd]. now rewrite app_state_fresh_l.
Qed.

(** The four ways an entry can go. *)
Lemma entry_state_cases asset env addon_path kodi_version fallback image :
  In asset art_assets ->
  entry_state env asset addon_path kodi_version fallback image =
  match image with
  | Some (String _ _ as name) =>
      let filepath := os_path_join addon_path name in
      if isfile env filepath then
        mkState
          (exists_records env (fst asset) kodi_version fallback
           ++ match image_open env filepath with
              | Some im =>
                  report (exec (snd asset env im filepath (fst (size im)) (snd (size im)))
                               fresh)
              | None =>
                  [mkRecord PROBLEM
                     ("Could not open image, is the file corrupted? "
                      ++ relative_path env filepath)]
              end)%list
          [IsFile filepath; Open filepath]
      else
        mkState [if fallback
                 then mkRecord INFORMATION ("You might want to add a " ++ fst asset)
                 else mkRecord PROBLEM (fst asset ++ " does not exist at specified path.")]
                [IsFile filepath]
  | _ => mkState [mkRecord WARNING ("Empty image tag found for " ++ fst asset)] []
  end.
Proof.
  intros Hin. unfold entry_state, exec.
  destruct image as [[|c r]|]; try reflexivity.
  cbv zeta. set (name := String c r).
  assert (Hne : name <> "") by discriminate.
  destruct (isfile env (os_path_join addon_path name)) eqn:Hf.
  - destruct (image_open env (os_path_join addon_path name)) as [im|] eqn:Ho.
    + pose proof (emits_art_assets asset env im (os_path_join addon_path name)
                    (fst (size im)) (snd (size im)) Hin) as Hcb.
      rewrite (body_decoded _ _ _ _ _ _ _ _ _ _ Hne Hf Ho Hcb). reflexivity.
    + rewrite body_corrupt by assumption. reflexivity.
  - rewrite body_missing by assumption. reflexivity.
Qed.

(** X4: the file-system calls of a role, exactly: entry by entry, nothing for
    an empty entry, one [isfile] for a named one, and one [Image.open] right
    after it when, and only when, [isfile] said yes.  In particular a role
    never opens a path that [isfile] denied, and touches no path that is not
    the join of the addon path with one of its entries. *)
Theorem role_accesses asset env parsed_xml addon_path kodi_version :
  In asset art_assets ->
  accesses (role_state env asset parsed_xml addon_path kodi_version) =
  flat_map (entry_accesses env addon_path) (snd (_assests (fst asset) parsed_xml addon_path))
  /\ forall p, In (Open p) (accesses (role_state env asset parsed_xml addon_path kodi_version))
               -> isfile env p = true.
Proof.
  intros Hin.
  assert (E : accesses (role_state env asset parsed_xml addon_path kodi_version) =
              flat_map (entry_accesses env addon_path)
                       (snd (_assests (fst asset) parsed_xml addon_path))).
  { rewrite role_state_entries by exact Hin. rewrite fold_app_state_accesses.
    apply flat_map_ext. intros image.
    rewrite entry_state_cases by exact Hin. unfold entry_accesses.
    destruct image as [[|c r]|]; try reflexivity.
    cbv zeta. destruct (isfile env _); reflexivity. }
  split; [exact E|].
  intros p Hp. rewrite E in Hp. apply in_flat_map in Hp.
  destruct Hp as [image [_ Hp]]. unfold entry_accesses in Hp.
  destruct image as [[|c r]|]; try contradiction.
  cbv zeta in Hp. destruct Hp as [Hp | Hp]; [discriminate Hp|].
  destruct (isfile env (os_path_join addon_path (String c r))) eqn:Hf; [|contradiction].
  destruct Hp as [Hp | []]. injection Hp as <-. exact Hf.
Qed.

Lemma role_accesses_witness :
  accesses (role_state Demo.env ("screenshot", _check_screenshot) Demo.parsed_xml
              Demo.addon_path Demo.leia) =
  [IsFile "/addons/plugin.video.demo/resources/shot.png";
   Open "/addons/plugin.video.demo/resources/shot.png";
   IsFile "/addons/plugin.video.demo/resources/missing.jpg"].
Proof.
  apply (proj1 (role_accesses ("screenshot", _check_screenshot) Demo.env Demo.parsed_xml
                  Demo.addon_path Demo.leia ltac:(simpl; auto))).
Defined.

(** ** The resolver, in general *)

Lemma assests_declared role parsed_xml addon_path :
  map text (findall parsed_xml ("./extension/assets/" ++ role)) <> [] ->
  _assests role parsed_xml addon_path =
  (false, map text (findall parsed_xml ("./extension/assets/" ++ role))).
Proof.
  intros Hne. unfold _assests.
  destruct (map text (findall parsed_xml ("./extension/assets/" ++ role)));
    [congruence | reflexivity].
Qed.

Lemma assests_fallback role parsed_xml addon_path :
  fst (_assests role parsed_xml addon_path) = true ->
  map text (findall parsed_xml ("./extension/assets/" ++ role)) = [] /\
  (role = "icon" /\ snd (_assests role parsed_xml addon_path) = [Some "icon.png"] \/
   role = "fanart" /\ ~ skipped_addon_type addon_path /\
   snd (_assests role parsed_xml addon_path) = [Some "fanart.jpg"]).
Proof.
  unfold _assests, skipped_addon_type.
  destruct (map text (findall parsed_xml ("./extension/assets/" ++ role)));
    [|discriminate].
  destruct (String.eqb_spec role "icon") as [->|Hi].
  - intros _. split; [reflexivity|]. left. split; reflexivity.
  - destruct (String.eqb_spec role "fanart") as [->|Hf]; [|discriminate].
    destruct (skip_loop _ addon_path) eqn:Es; [discriminate|].
    intros _. split; [reflexivity|]. right. split; [reflexivity|]. split; [|reflexivity].
    intros H. apply skip_loop_spec in H. congruence.
Qed.

(** X3: what the resolver can answer.  When addon.xml declares something for
    the role, the answer is the declared texts in document order and no
    fallback, whatever the role and the addon path.  The fallback flag is set
    only when nothing is declared, only for icon and fanart, and then the
    list is the one conventional name. *)
Theorem assests_cases role parsed_xml addon_path :
  let declared := map text (findall parsed_xml ("./extension/assets/" ++ role)) in
  (declared <> [] -> _assests role parsed_xml addon_path = (false, declared)) /\
  (fst (_assests role parsed_xml addon_path) = true ->
   declared = [] /\
   (role = "icon" /\ snd (_assests role parsed_xml addon_path) = [Some "icon.png"] \/
    role = "fanart" /\ ~ skipped_addon_type addon_path /\
    snd (_assests role parsed_xml addon_path) = [Some "fanart.jpg"])).
Proof.
  cbv zeta. split; [apply assests_declared | apply assests_fallback].
Qed.

Lemma assests_cases_witness :
  _assests "fanart" Demo.parsed_xml "/addons/metadata.demo"
  = (false, [Some "resources/fanart.jpg"]) /\
  (map text (findall Demo.parsed_xml "./extension/assets/icon") = [] /\
   ("icon" = "icon" /\ snd (_assests "icon" Demo.parsed_xml Demo.addon_path)
                       = [Some "icon.png"] \/
    "icon" = "fanart" /\ ~ skipped_addon_type Demo.addon_path /\
    snd (_assests "icon" Demo.parsed_xml Demo.addon_path) = [Some "fanart.jpg"])).
Proof.
  split.
  - apply (proj1 (assests_cases "fanart" Demo.parsed_xml "/addons/metadata.demo")).
    discriminate.
  - apply (proj2 (assests_cases "icon" Demo.parsed_xml Demo.addon_path)). reflexivity.
Defined.

(** ** Severities and sizes of a role's report *)

Ltac each_level :=
  let r := fresh "r" in
  let H := fresh "H" in
  intros r H; simpl in H;
  repeat match goal with
         | H : _ \/ _ |- _ => destruct H as [H | H]
         | H : False |- _ => destruct H
         end;
  subst r; (split; [discriminate | reflexivity]).

(** A rule check adds no WARNING, and none of its messages starts like the
    messages of the missing-file step. *)
Lemma rule_records_kind asset env im filepath width height :
  In asset art_assets ->
  forall r, In r (report (exec (snd asset env im filepath width height) fresh)) ->
            log_level r <> WARNING /\ prefix "Yo" (message r) = false.
Proof.
  unfold art_assets. simpl.
  intros [<- | [<- | [<- | [<- | [<- | []]]]]]; cbn [snd].
  - unfold _check_icon. rule_cases; each_level.
  - unfold _check_fanart. rule_cases; each_level.
  - unfold _check_screenshot.
    destruct (os_path_splitext filepath) as [filename fileextension].
    rule_cases; each_level.
  - unfold _check_banner. rule_cases; each_level.
  - unfold _check_clearlogo. rule_cases; each_level.
Qed.

(** A rule check adds between one and three records. *)
Lemma rule_report_length asset env im filepath width height :
  In asset art_assets ->
  (1 <= length (report (exec (snd asset env im filepath width height) fresh)) <= 3)%nat.
Proof.
  unfold art_assets. simpl.
  intros [<- | [<- | [<- | [<- | [<- | []]]]]]; cbn [snd].
  - unfold _check_icon. rule_cases; simpl; lia.
  - unfold _check_fanart. rule_cases; simpl; lia.
  - unfold _check_screenshot.
    destruct (os_path_splitext filepath) as [filename fileextension].
    rule_cases; simpl; lia.
  - unfold _check_banner. rule_cases; simpl; lia.
  - unfold _check_clearlogo. rule_cases; simpl; lia.
Qed.

Lemma count_level_app lvl (a b : Report) :
  count_level lvl (a ++ b)%list = (count_level lvl a + count_level lvl b)%nat.
Proof. unfold count_level. now rewrite filter_app, length_app. Qed.

Lemma count_level_none lvl (l : Report) :
  (forall r, In r l -> log_level r <> lvl) -> count_level lvl l = 0%nat.
Proof.
  unfold count_level. induction l as [|x l IH]; intros H; simpl; [reflexivity|].
  destruct (Severity_eqb (log_level x) lvl) eqn:E.
  - exfalso. apply (H x); [now left|].
    destruct (log_level x), lvl; try discriminate; reflexivity.
  - apply IH. intros r Hr. apply H. now right.
Qed.

Lemma entry_warnings asset env addon_path kodi_version fallback image :
  In asset art_assets ->
  count_level WARNING (report (entry_state env asset addon_path kodi_version fallback image))
  = if falsy image then 1%nat else 0%nat.
Proof.
  intros Hin. rewrite entry_state_cases by exact Hin.
  destruct image as [[|c r]|]; try reflexivity.
  cbv zeta. cbn [falsy]. destruct (isfile env _).
  - cbn [report]. rewrite count_level_app.
    assert (H1 : count_level WARNING (exists_records env (fst asset) kodi_version fallback)
                 = 0%nat).
    { unfold exists_records. destruct (fallback && _); reflexivity. }
    rewrite H1. destruct (image_open env _) as [im|]; [|reflexivity].
    apply count_level_none. intros x Hx.
    apply (rule_records_kind asset env im _ _ _ Hin x Hx).
  - destruct fallback; reflexivity.
Qed.

(** X5: a role reports one WARNING for each empty entry and no other: the
    number of WARNINGs of a role is the number of its entries without text. *)
Theorem role_warnings asset env parsed_xml addon_path kodi_version :
  In asset art_assets ->
  count_level WARNING (report (role_state env asset parsed_xml addon_path kodi_version)) =
  length (filter falsy (snd (_assests (fst asset) parsed_xml addon_path))).
Proof.
  intros Hin. rewrite role_state_entries by exact Hin. rewrite fold_app_state_report.
  induction (snd (_assests (fst asset) parsed_xml addon_path)) as [|image l IH].
  - reflexivity.
  - cbn [flat_map filter]. rewrite count_level_app, IH.
    rewrite entry_warnings by exact Hin.
    destruct (falsy image); reflexivity.
Qed.

Lemma role_warnings_witness :
  count_level WARNING
    (report (role_state Demo.env ("screenshot", _check_screenshot) Demo.parsed_xml
               Demo.addon_path Demo.leia)) = 1%nat.
Proof.
  apply (role_warnings ("screenshot", _check_screenshot) Demo.env Demo.parsed_xml
           Demo.addon_path Demo.leia).
  simpl. auto.
Defined.

Lemma entry_report_length asset env addon_path kodi_version fallback image :
  In asset art_assets ->
  (1 <= length (report (entry_state env asset addon_path kodi_version fallback image)) <= 5)%nat.
Proof.
  intros Hin. rewrite entry_state_cases by exact Hin.
  destruct image as [[|c r]|]; try (simpl; lia).
  cbv zeta. destruct (isfile env _); [|simpl; lia].
  cbn [report]. rewrite length_app.
  assert (H1 : (1 <= length (exists_records env (fst asset) kodi_version fallback) <= 2)%nat).
  { unfold exists_records. destruct (fallback && _); simpl; lia. }
  destruct (image_open env _) as [im|].
  - pose proof (rule_report_length asset env im
                  (os_path_join addon_path (String c r)) (fst (size im)) (snd (size im)) Hin)
      as H2.
    revert H1 H2. generalize (length (exists_records env (fst asset) kodi_version fallback)).
    generalize (length (report (exec (snd asset env im (os_path_join addon_path (String c r))
                                        (fst (size im)) (snd (size im))) fresh))).
    intros; lia.
  - revert H1. generalize (length (exists_records env (fst asset) kodi_version fallback)).
    intros; simpl; lia.
Qed.

(** X6: no entry is passed over in silence and none floods the report: a role
    with [n] entries adds at least [n] and at most [5 * n] records. *)
Theorem role_report_bounds asset env parsed_xml addon_path kodi_version :
  In asset art_assets ->
  let n := length (snd (_assests (fst asset) parsed_xml addon_path)) in
  (n <= length (report (role_state env asset parsed_xml addon_path kodi_version)) <= 5 * n)%nat.
Proof.
  intros Hin. cbv zeta. rewrite role_state_entries by exact Hin.
  rewrite fold_app_state_report.
  induction (snd (_assests (fst asset) parsed_xml addon_path)) as [|image l IH].
  - simpl. lia.
  - cbn [flat_map length]. rewrite length_app.
    pose proof (entry_report_length asset env addon_path kodi_version
                  (fst (_assests (fst asset) parsed_xml addon_path)) image Hin).
    lia.
Qed.

Lemma role_report_bounds_witness :
  (3 <= length (report (role_state Demo.env ("screenshot", _check_screenshot) Demo.parsed_xml
                          Demo.addon_path Demo.leia)) <= 5 * 3)%nat.
Proof.
  apply (role_report_bounds ("screenshot", _check_screenshot) Demo.env Demo.parsed_xml
           Demo.addon_path Demo.leia).
  simpl. auto.
Defined.

(** ** The hint to add an image *)

Lemma entry_might_want asset env addon_path kodi_version fallback image :
  In asset art_assets ->
  In (mkRecord INFORMATION ("You might want to add a " ++ fst asset))
     (report (entry_state env asset addon_path kodi_version fallback image)) <->
  fallback = true /\
  exists name, image = Some name /\ name <> "" /\
               isfile env (os_path_join addon_path name) = false.
Proof.
  intros Hin. rewrite entry_state_cases by exact Hin.
  destruct image as [[|c r]|].
  - split.
    + intros [H | []]. discriminate H.
    + intros [_ [name [[= <-] [Hne _]]]]. congruence.
  - cbv zeta. destruct (isfile env (os_path_join addon_path (String c r))) eqn:Hf.
    + split.
      * cbn [report]. intros H. apply in_app_or in H. destruct H as [H | H].
        -- unfold exists_records in H. destruct H as [H | H]; [discriminate H|].
           destruct (fallback && _); [|destruct H].
           destruct H as [H | []]. discriminate H.
        -- destruct (image_open env _) as [im|].
           ++ apply (rule_records_kind asset env im _ _ _ Hin) in H.
              destruct H as [_ H]. discriminate H.
           ++ destruct H as [H | []]. discriminate H.
      * intros [_ [name [[= <-] [_ H]]]]. congruence.
    + split.
      * intros [H | []]. destruct fallback; [|discriminate H].
        split; [reflexivity|]. exists (String c r). repeat split; [discriminate | exact Hf].
      * intros [-> _]. now left.
  - split.
    + intros [H | []]. discriminate H.
    + intros [_ [name [[=] _]]].
Qed.

(** X7: the INFORMATION "You might want to add a <role>" appears in the
    report of a role exactly when the role was resolved by fallback and the
    conventional file is not there; so it is only ever said of the icon and of
    the fanart, never of a screenshot, a banner or a clearlogo, and never of a
    declared image. *)
Theorem might_want_only_fallback asset env parsed_xml addon_path kodi_version :
  In asset art_assets ->
  let might := mkRecord INFORMATION ("You might want to add a " ++ fst asset) in
  let resolved := _assests (fst asset) parsed_xml addon_path in
  (In might (report (role_state env asset parsed_xml addon_path kodi_version)) <->
   fst resolved = true /\
   exists name, In (Some name) (snd resolved) /\ name <> "" /\
                isfile env (os_path_join addon_path name) = false) /\
  (In might (report (role_state env asset parsed_xml addon_path kodi_version)) ->
   (fst asset = "icon" \/ fst asset = "fanart") /\
   findall parsed_xml ("./extension/assets/" ++ fst asset) = []).
Proof.
  intros Hin. cbv zeta.
  assert (E : In (mkRecord INFORMATION ("You might want to add a " ++ fst asset))
                 (report (role_state env asset parsed_xml addon_path kodi_version)) <->
              fst (_assests (fst asset) parsed_xml addon_path) = true /\
              exists name, In (Some name) (snd (_assests (fst asset) parsed_xml addon_path)) /\
                           name <> "" /\ isfile env (os_path_join addon_path name) = false).
  { rewrite role_state_entries by exact Hin. rewrite fold_app_state_report.
    rewrite in_flat_map. split.
    - intros [image [Himage H]]. apply (entry_might_want asset) in H; [|exact Hin].
      destruct H as [Hfb [name [-> [Hne Hf]]]]. split; [exact Hfb|]. exists name. auto.
    - intros [Hfb [name [Himage [Hne Hf]]]]. exists (Some name). split; [exact Himage|].
      apply (entry_might_want asset); [exact Hin|]. split; [exact Hfb|]. exists name. auto. }
  split; [exact E|].
  intros H. apply E in H. destruct H as [Hfb _].
  apply assests_fallback in Hfb. destruct Hfb as [Hd Hrole].
  split.
  - destruct Hrole as [[-> _] | [-> _]]; auto.
  - destruct (findall parsed_xml ("./extension/assets/" ++ fst asset)); [reflexivity|].
    discriminate Hd.
Qed.

Lemma might_want_only_fallback_witness :
  In (mkRecord INFORMATION "You might want to add a fanart")
     (report (role_state Demo.env ("fanart", _check_fanart) Demo.no_assets Demo.addon_path
                Demo.leia)).
Proof.
  apply (proj1 (might_want_only_fallback ("fanart", _check_fanart) Demo.env Demo.no_assets
                  Demo.addon_path Demo.leia ltac:(simpl; auto))).
  split; [reflexivity|]. exists "fanart.jpg".
  split; [simpl; auto|]. split; [discriminate | reflexivity].
Defined.

(** ** The version *)

(** X8: the version matters only through the krypton threshold: two versions
    on the same side of it give the same run, record for record. *)
Theorem version_threshold env addon_path parsed_xml file_index v1 v2 s :
  (KodiVersion env "krypton" <=? v1) = (KodiVersion env "krypton" <=? v2) ->
  check_artwork env addon_path parsed_xml file_index v1 s =
  check_artwork env addon_path parsed_xml file_index v2 s.
Proof.
  intros Hv. unfold check_artwork. apply bind_ext; [|reflexivity].
  clear s. intros s. apply for_each_ext. clear s. intros asset s.
  unfold _check_image_type.
  destruct (_assests (fst asset) parsed_xml addon_path) as [fallback images].
  apply for_each_ext. clear s. intros image s.
  unfold _check_image_type_body. now rewrite Hv.
Qed.

Lemma version_threshold_witness :
  check_artwork Demo.env Demo.addon_path Demo.parsed_xml Demo.file_index
    (KodiVersion Demo.env "leia") fresh =
  check_artwork Demo.env Demo.addon_path Demo.parsed_xml Demo.file_index
    (KodiVersion Demo.env "matrix") fresh.
Proof.
  apply (version_threshold Demo.env Demo.addon_path Demo.parsed_xml Demo.file_index
           (KodiVersion Demo.env "leia") (KodiVersion Demo.env "matrix") fresh).
  reflexivity.
Defined.

(** ** Absolute paths in addon.xml *)

(** X9: an entry that starts with a slash is not looked up under the addon:
    [os.path.join] drops the addon path, so the entry is looked up, opened
    and checked at the absolute path itself, whatever the addon path is. *)
Theorem absolute_entry_leaves_addon env image_type image_check_cb addon_path kodi_version
    fallback image s :
  starts_with "/" image ->
  os_path_join addon_path image = image /\
  forall other_path,
    _check_image_type_body env image_type image_check_cb addon_path kodi_version fallback
      (Some image) s =
    _check_image_type_body env image_type image_check_cb other_path kodi_version fallback
      (Some image) s.
Proof.
  intros H. apply prefix_starts_with in H.
  assert (J : forall a, os_path_join a image = image).
  { intros a. unfold os_path_join. now rewrite H. }
  split; [apply J|]. intros other_path.
  unfold _check_image_type_body. destruct image as [|c r]; [reflexivity|].
  now rewrite !J.
Qed.

Lemma absolute_entry_leaves_addon_witness :
  os_path_join Demo.addon_path "/etc/logo.png" = "/etc/logo.png" /\
  forall other_path,
    _check_image_type_body Demo.env "icon" (_check_icon Demo.env) Demo.addon_path Demo.leia
      false (Some "/etc/logo.png") fresh =
    _check_image_type_body Demo.env "icon" (_check_icon Demo.env) other_path Demo.leia
      false (Some "/etc/logo.png") fresh.
Proof.
  apply (absolute_entry_leaves_addon Demo.env "icon" (_check_icon Demo.env) Demo.addon_path
           Demo.leia false "/etc/logo.png" fresh).
  exists "etc/logo.png". reflexivity.
Defined.

(** ** When a rule check finds nothing to complain about *)

Lemma size_in_In wh l : size_in wh l = true <-> In wh l.
Proof.
  unfold size_in. rewrite existsb_exists. split.
  - intros [x [Hx E]]. unfold size_eqb in E. apply andb_true_iff in E.
    destruct E as [E1 E2]. apply Z.eqb_eq in E1, E2.
    destruct wh, x. simpl in *. now subst.
  - intros H. exists wh. split; [exact H|]. unfold size_eqb.
    now rewrite !Z.eqb_refl.
Qed.

Lemma string_in_In x l : string_in x l = true <-> In x l.
Proof.
  unfold string_in. rewrite existsb_exists. split.
  - intros [y [Hy E]]. apply String.eqb_eq in E. now subst.
  - intros H. exists x. split; [exact H | apply String.eqb_refl].
Qed.

Lemma clean_app (a b : Report) : clean (a ++ b)%list <-> clean a /\ clean b.
Proof.
  unfold clean. split.
  - intros H. split; intros x Hx; apply H; apply in_or_app; auto.
  - intros [Ha Hb] x Hx. apply in_app_or in Hx. destruct Hx; auto.
Qed.

Lemma clean_problem_if (b : bool) msg :
  clean (if b then [mkRecord PROBLEM msg] else []) <-> b = false.
Proof.
  unfold clean. destruct b; split; try reflexivity.
  - intros H. exfalso. apply (H (mkRecord PROBLEM msg)); [now left | reflexivity].
  - discriminate.
  - intros _ x [].
Qed.

Lemma clean_dimension role filepath wh :
  clean [dimension_record role filepath wh] <-> size_in wh (accepted_sizes role) = true.
Proof.
  unfold clean, dimension_record, accepted_sizes.
  destruct (size_in wh (sizes (rule_of role))); split; try reflexivity.
  - intros _ x [<- | []]. discriminate.
  - intros H. exfalso. eapply H; [now left | reflexivity].
  - discriminate.
Qed.

Ltac rule_shape :=
  unfold dimension_record;
  cbn [rule_of String.eqb Ascii.eqb Bool.eqb title sizes names_file];
  repeat match goal with
         | |- context [negb ?b] => destruct b; cbn [negb]
         end;
  repeat match goal with
         | |- context [if ?b then _ else _] => destruct b
         end;
  unfold bind, report_add, ret, exec; cbn [fst snd report accesses app];
  reflexivity.

Lemma check_icon_report env im filepath width height :
  report (exec (_check_icon env im filepath width height) fresh) =
  ((if (snd (os_path_splitext filepath) =? ".png")%string then []
    else [mkRecord PROBLEM
            ("Icon should be in the png format, provided icon is "
             ++ snd (os_path_splitext filepath) ++ ".")])
   ++ (if has_transparency env im
       then [mkRecord PROBLEM "Icon should be solid. It has transparency."] else [])
   ++ [dimension_record "icon" filepath (width, height)])%list.
Proof. unfold _check_icon. rule_shape. Qed.

Lemma check_fanart_report env im filepath width height :
  report (exec (_check_fanart env im filepath width height) fresh) =
  ((if string_in (snd (os_path_splitext filepath)) [".jpg"; ".jpeg"] then []
    else [mkRecord PROBLEM
            ("Fanart should be in the jpeg format, provided fanart is "
             ++ snd (os_path_splitext filepath) ++ ".")])
   ++ [dimension_record "fanart" filepath (width, height)])%list.
Proof. unfold _check_fanart. rule_shape. Qed.

Lemma check_banner_report env im filepath width height :
  report (exec (_check_banner env im filepath width height) fresh) =
  ((if string_in (snd (os_path_splitext filepath)) [".jpg"; ".jpeg"] then []
    else [mkRecord PROBLEM
            ("Banner should be in the jpeg format, provided banner is "
             ++ snd (os_path_splitext filepath) ++ ".")])
   ++ (if has_transparency env im
       then [mkRecord PROBLEM "Banner should be solid. It has transparency."] else [])
   ++ [dimension_record "banner" filepath (width, height)])%list.
Proof.
  unfold _check_banner, dimension_record, size_in.
  cbn [rule_of String.eqb Ascii.eqb Bool.eqb title sizes names_file existsb].
  rewrite orb_false_r. rule_shape.
Qed.

Lemma check_clearlogo_report env im filepath width height :
  report (exec (_check_clearlogo env im filepath width height) fresh) =
  ((if (snd (os_path_splitext filepath) =? ".png")%string then []
    else [mkRecord PROBLEM
            ("Clearlogo should be in the png format, provided clearlogo is "
             ++ snd (os_path_splitext filepath) ++ ".")])
   ++ (if negb (has_transparency env im)
       then [mkRecord PROBLEM "Clearlogo should have transparency. It is solid."] else [])
   ++ [dimension_record "clearlogo" filepath (width, height)])%list.
Proof. unfold _check_clearlogo. rule_shape. Qed.

Lemma clean_problem_unless (b : bool) msg :
  clean (if b then [] else [mkRecord PROBLEM msg]) <-> b = true.
Proof.
  unfold clean. destruct b; split; try reflexivity.
  - intros _ x [].
  - intros H. exfalso. apply (H (mkRecord PROBLEM msg)); [now left | reflexivity].
  - discriminate.
Qed.

(** X10: the icon check reports no PROBLEM exactly when the extension is
    [.png] (in lower case), the image has no transparency, and the size is
    256x256 or 512x512. *)
Theorem icon_passes env im filepath width height :
  clean (report (exec (_check_icon env im filepath width height) fresh)) <->
  snd (os_path_splitext filepath) = ".png" /\
  has_transparency env im = false /\
  In (width, height) [(256, 256); (512, 512)].
Proof.
  rewrite check_icon_report, !clean_app, clean_problem_unless, clean_problem_if,
    clean_dimension, String.eqb_eq, size_in_In.
  reflexivity.
Qed.

(** X11: the fanart check reports no PROBLEM exactly when the extension is
    [.jpg] or [.jpeg] and the size is 1280x720, 1920x1080 or 3840x2160; the
    image itself, and so its transparency, plays no part. *)
Theorem fanart_passes env im filepath width height :
  clean (report (exec (_check_fanart env im filepath width height) fresh)) <->
  In (snd (os_path_splitext filepath)) [".jpg"; ".jpeg"] /\
  In (width, height) [(1280, 720); (1920, 1080); (3840, 2160)].
Proof.
  rewrite check_fanart_report, !clean_app, clean_problem_unless,
    clean_dimension, string_in_In, size_in_In.
  reflexivity.
Qed.

(** X12: the banner check reports no PROBLEM exactly when the extension is
    [.jpg] or [.jpeg], the image has no transparency, and the size is
    1000x185. *)
Theorem banner_passes env im filepath width height :
  clean (report (exec (_check_banner env im filepath width height) fresh)) <->
  In (snd (os_path_splitext filepath)) [".jpg"; ".jpeg"] /\
  has_transparency env im = false /\
  (width, height) = (1000, 185).
Proof.
  rewrite check_banner_report, !clean_app, clean_problem_unless, clean_problem_if,
    clean_dimension, string_in_In, size_in_In.
  unfold accepted_sizes. cbn [rule_of String.eqb Ascii.eqb Bool.eqb sizes In].
  intuition congruence.
Qed.

(** X13: the clearlogo check reports no PROBLEM exactly when the extension
    is [.png], the image has transparency, and the size is 400x155 or
    800x310. *)
Theorem clearlogo_passes env im filepath width height :
  clean (report (exec (_check_clearlogo env im filepath width height) fresh)) <->
  snd (os_path_splitext filepath) = ".png" /\
  has_transparency env im = true /\
  In (width, height) [(400, 155); (800, 310)].
Proof.
  rewrite check_clearlogo_report, !clean_app, clean_problem_unless, clean_problem_if,
    clean_dimension, String.eqb_eq, size_in_In, negb_false_iff.
  reflexivity.
Qed.

(** X14: the screenshot check reports no PROBLEM exactly when the extension
    is [.jpg] or [.jpeg], the image has no transparency, and the size is
    1280x720 or 1920x1080. *)
Theorem screenshot_passes env im filepath width height :
  clean (report (exec (_check_screenshot env im filepath width height) fresh)) <->
  In (snd (os_path_splitext filepath)) [".jpg"; ".jpeg"] /\
  has_transparency env im = false /\
  In (width, height) [(1280, 720); (1920, 1080)].
Proof.
  rewrite check_screenshot_report, !clean_app, clean_problem_unless, clean_problem_if,
    clean_dimension, string_in_In, size_in_In.
  reflexivity.
Qed.

(** ** When an entry passes *)

(** X15: an entry adds no PROBLEM in three cases only: it is empty (it gets a
    WARNING); or its file is missing and the role was resolved by fallback;
    or its file is there, opens, passes the rule of the role, and the role was
    not resolved by fallback on krypton or later. *)
Theorem entry_passes asset env addon_path kodi_version fallback image :
  In asset art_assets ->
  clean (report (entry_state env asset addon_path kodi_version fallback image)) <->
  match image with
  | Some (String _ _ as name) =>
      let filepath := os_path_join addon_path name in
      if isfile env filepath then
        fallback && (KodiVersion env "krypton" <=? kodi_version) = false /\
        exists im, image_open env filepath = Some im /\
                   clean (report (exec (snd asset env im filepath (fst (size im))
                                          (snd (size im))) fresh))
      else fallback = true
  | _ => True
  end.
Proof.
  intros Hin. rewrite entry_state_cases by exact Hin.
  destruct image as [[|c r]|].
  - split; [auto|]. intros _ x [<- | []]. discriminate.
  - cbv zeta. destruct (isfile env (os_path_join addon_path (String c r))).
    + cbn [report]. rewrite clean_app. unfold exists_records.
      change (?a :: ?l) with ([a] ++ l)%list at 1. rewrite clean_app, clean_problem_if.
      destruct (image_open env (os_path_join addon_path (String c r))) as [im|].
      * split.
        -- intros [[_ Hg] Hr]. split; [exact Hg|]. exists im. auto.
        -- intros [Hg [im' [[= <-] Hr]]]. repeat split; auto.
           intros x [<- | []]. discriminate.
      * split.
        -- intros [_ H]. exfalso. eapply H; [now left | reflexivity].
        -- intros [_ [im [[=] _]]].
    + destruct fallback; split; try reflexivity.
      * intros _ x [<- | []]. discriminate.
      * intros H. exfalso. eapply H; [now left | reflexivity].
      * discriminate.
  - split; [auto|]. intros _ x [<- | []]. discriminate.
Qed.

Lemma entry_passes_witness :
  clean (report (entry_state Demo.env ("icon", _check_icon) Demo.addon_path
                   (KodiVersion Demo.env "jarvis") true (Some "icon.png"))).
Proof.
  apply (proj2 (entry_passes ("icon", _check_icon) Demo.env Demo.addon_path
                  (KodiVersion Demo.env "jarvis") true (Some "icon.png")
                  ltac:(simpl; auto))).
  split; [reflexivity|]. exists (mkImage (256, 256) "RGB"). split; [reflexivity|].
  intros x Hx. vm_compute in Hx. destruct Hx as [<- | []]. discriminate.
Defined.

(** ** An unreadable image is reported twice *)

Lemma scan_state_files env file_index :
  scan_state env file_index =
  fold_right (fun file acc => app_state (exec (check_artwork_body env file) fresh) acc)
             fresh file_index.
Proof.
  unfold scan_state.
  apply (emits_fresh _ _ _
           (emits_for_each (check_artwork_body env) file_index
              (emits_check_artwork_body env))).
Qed.

Lemma check_artwork_report env addon_path parsed_xml file_index kodi_version :
  report (exec (check_artwork env addon_path parsed_xml file_index kodi_version) fresh) =
  (flat_map (fun asset => report (role_state env asset parsed_xml addon_path kodi_version))
            art_assets
   ++ report (scan_state env file_index))%list.
Proof.
  pose proof (emits_seq _ _ _ _ _
                (emits_roles env parsed_xml addon_path kodi_version)
                (emits_scan env file_index)) as H.
  fold (check_artwork env addon_path parsed_xml file_index kodi_version) in H.
  rewrite (emits_fresh _ _ _ H). unfold app_state. cbn [report].
  now rewrite (fold_app_state_report
                 (fun asset => role_state env asset parsed_xml addon_path kodi_version)).
Qed.

(** X16: a declared image that is there but cannot be opened, and that the
    file index lists under a name the loose-image pattern accepts, is
    reported twice in one run: once by its role, and once more by the scan,
    in a message that differs by one blank. *)
Theorem unreadable_image_reported_twice asset env parsed_xml addon_path file_index
    kodi_version image file :
  In asset art_assets ->
  In (Some image) (snd (_assests (fst asset) parsed_xml addon_path)) ->
  image <> "" ->
  isfile env (os_path_join addon_path image) = true ->
  image_open env (os_path_join addon_path image) = None ->
  In file file_index ->
  loose_image_name (name file) ->
  os_path_join (path file) (name file) = os_path_join addon_path image ->
  let run :=
    report (exec (check_artwork env addon_path parsed_xml file_index kodi_version) fresh) in
  let shown := relative_path env (os_path_join addon_path image) in
  In (mkRecord PROBLEM ("Could not open image, is the file corrupted? " ++ shown)) run /\
  In (mkRecord PROBLEM ("Could not open image, is the file corrupted ? " ++ shown)) run.
Proof.
  intros Hin Himage Hne Hf Ho Hfile Hname Hpath. cbv zeta.
  rewrite check_artwork_report. split; apply in_or_app; [left | right].
  - apply in_flat_map. exists asset. split; [exact Hin|].
    rewrite role_state_entries by exact Hin. rewrite fold_app_state_report.
    apply in_flat_map. exists (Some image). split; [exact Himage|].
    rewrite entry_state_cases by exact Hin.
    destruct image as [|c r]; [congruence|].
    cbv zeta. rewrite Hf, Ho. cbn [report]. apply in_or_app. right. now left.
  - rewrite scan_state_files, fold_app_state_report.
    apply in_flat_map. exists file. split; [exact Hfile|].
    apply re_match_loose_image in Hname.
    unfold check_artwork_body, exec. rewrite Hname.
    unfold try_except, bind, Image_open. rewrite Hpath, Ho.
    unfold report_add. cbn [snd report app]. now left.
Qed.

Lemma unreadable_image_reported_twice_witness :
  let run :=
    report (exec (check_artwork Gallery.env Gallery.addon_path Gallery.parsed_xml
                    Gallery.file_index 17) fresh) in
  In (mkRecord PROBLEM
        "Could not open image, is the file corrupted? /addons/plugin.image.gallery/resources/shot.jpg")
     run /\
  In (mkRecord PROBLEM
        "Could not open image, is the file corrupted ? /addons/plugin.image.gallery/resources/shot.jpg")
     run.
Proof.
  apply (unreadable_image_reported_twice ("screenshot", _check_screenshot) Gallery.env
           Gallery.parsed_xml Gallery.addon_path Gallery.file_index 17
           "resources/shot.jpg" (mkFile "shot.jpg" "/addons/plugin.image.gallery/resources")).
  - simpl. auto.
  - simpl. auto.
  - discriminate.
  - reflexivity.
  - reflexivity.
  - simpl. auto.
  - apply re_match_loose_image. reflexivity.
  - reflexivity.
Defined.

(** ** Paths and extensions *)

Lemma length_append a b : String.length (a ++ b) = (String.length a + String.length b)%nat.
Proof. induction a as [|x a IH]; simpl; [reflexivity | now rewrite IH]. Qed.

Lemma rfind_range s c : -1 <= rfind s c < Z.of_nat (String.length s).
Proof.
  induction s as [|a s IH]; simpl rfind.
  - simpl. lia.
  - cbn [String.length]. cbv zeta.
    destruct (0 <=? rfind s c) eqn:E; [apply Z.leb_le in E; lia|].
    destruct (Ascii.eqb a c); lia.
Qed.

Lemma rfind_app a b c :
  rfind (a ++ b) c =
  if 0 <=? rfind b c then Z.of_nat (String.length a) + rfind b c else rfind a c.
Proof.
  induction a as [|x a IH].
  - simpl. pose proof (rfind_range b c).
    destruct (0 <=? rfind b c) eqn:E; [reflexivity|]. apply Z.leb_gt in E. lia.
  - cbn [append rfind String.length]. cbv zeta. rewrite IH.
    destruct (0 <=? rfind b c) eqn:E; [|reflexivity].
    apply Z.leb_le in E.
    assert (H : (0 <=? Z.of_nat (String.length a) + rfind b c) = true)
      by (apply Z.leb_le; lia).
    rewrite H. lia.
Qed.

Lemma get_app_shift a b i : get (String.length a + i) (a ++ b) = get i b.
Proof. induction a as [|x a IH]; simpl; [reflexivity | exact IH]. Qed.

Lemma splitext_scan_shift a b n : forall i,
  splitext_scan (a ++ b) (String.length a + i) n = splitext_scan b i n.
Proof.
  induction n as [|n IH]; intros i; simpl; [reflexivity|].
  rewrite get_app_shift. rewrite <- Nat.add_succ_r, IH. reflexivity.
Qed.

Lemma substring_app_shift a b i n :
  substring (String.length a + i) n (a ++ b) = substring i n b.
Proof. induction a as [|x a IH]; simpl; [reflexivity | exact IH]. Qed.

Lemma endswith_slash a : endswith a "/" = true -> exists x, a = x ++ "/".
Proof.
  induction a as [|c a IH]; cbn [endswith].
  - discriminate.
  - rewrite orb_true_iff. intros [H | H].
    + apply String.eqb_eq in H. exists "". exact H.
    + destruct (IH H) as [x ->]. exists (String c x). reflexivity.
Qed.

(** The extension of [dir ++ b] is that of [b] when [dir] is empty or ends
    with a slash. *)
Lemma splitext_under_dir dir b :
  dir = "" \/ (exists x, dir = x ++ "/") ->
  snd (os_path_splitext (dir ++ b)) = snd (os_path_splitext b).
Proof.
  intros [-> | [x ->]]; [reflexivity|].
  set (dir := x ++ "/").
  assert (Hsep : rfind (dir ++ b) "/" = Z.of_nat (String.length dir) + rfind b "/").
  { rewrite rfind_app. pose proof (rfind_range b "/").
    destruct (0 <=? rfind b "/") eqn:E; [reflexivity|]. apply Z.leb_gt in E.
    unfold dir. rewrite rfind_app. simpl (rfind "/" "/"). cbn [Z.leb Z.compare].
    rewrite length_append. simpl (String.length "/"). lia. }
  assert (Hdir : rfind dir "." < Z.of_nat (String.length dir)) by apply rfind_range.
  pose proof (rfind_range b "/") as Hsb.
  pose proof (rfind_range b ".") as Hdb.
  unfold os_path_splitext. cbv zeta. rewrite Hsep.
  rewrite (rfind_app dir b ".").
  destruct (0 <=? rfind b ".") eqn:Ed.
  - apply Z.leb_le in Ed.
    replace (Z.of_nat (String.length dir) + rfind b "/" <?
             Z.of_nat (String.length dir) + rfind b ".")
      with (rfind b "/" <? rfind b ".")
      by (destruct (rfind b "/" <? rfind b ".") eqn:E; symmetry;
          [apply Z.ltb_lt in E; apply Z.ltb_lt | apply Z.ltb_ge in E; apply Z.ltb_ge]; lia).
    replace (Z.to_nat (Z.of_nat (String.length dir) + rfind b "/" + 1))
      with (String.length dir + Z.to_nat (rfind b "/" + 1))%nat by lia.
    replace (Z.of_nat (String.length dir) + rfind b "." -
             (Z.of_nat (String.length dir) + rfind b "/" + 1))
      with (rfind b "." - (rfind b "/" + 1)) by lia.
    rewrite splitext_scan_shift.
    destruct ((rfind b "/" <? rfind b ".") && _); [|reflexivity].
    cbn [snd]. unfold slice_from. rewrite length_append.
    replace (Z.to_nat (Z.of_nat (String.length dir) + rfind b "."))
      with (String.length dir + Z.to_nat (rfind b "."))%nat by lia.
    rewrite substring_app_shift. f_equal. lia.
  - apply Z.leb_gt in Ed.
    assert (E1 : (Z.of_nat (String.length dir) + rfind b "/" <? rfind dir ".") = false)
      by (apply Z.ltb_ge; lia).
    assert (E2 : (rfind b "/" <? rfind b ".") = false) by (apply Z.ltb_ge; lia).
    rewrite E1, E2. reflexivity.
Qed.

Lemma append_assoc (a b c : string) : (a ++ b) ++ c = a ++ b ++ c.
Proof. induction a as [|x a IH]; simpl; [reflexivity | now rewrite IH]. Qed.

(** X17: the extension that the rule checks see is the extension of the
    entry as addon.xml gives it: the addon path, dots and all, never
    contributes to it. *)
Theorem extension_from_entry addon_path image :
  snd (os_path_splitext (os_path_join addon_path image)) = snd (os_path_splitext image).
Proof.
  unfold os_path_join. destruct (prefix "/" image); [reflexivity|].
  destruct (String.eqb_spec addon_path "") as [->|Hne].
  - cbn [orb]. apply splitext_under_dir. now left.
  - cbn [orb]. destruct (endswith addon_path "/") eqn:E.
    + apply splitext_under_dir. right. now apply endswith_slash.
    + rewrite <- append_assoc. apply splitext_under_dir. right. now exists addon_path.
Qed.

Lemma substring_all s : substring 0 (String.length s) s = s.
Proof. induction s as [|c s IH]; simpl; [reflexivity | now rewrite IH]. Qed.

Lemma substring_split s : forall n,
  (n <= String.length s)%nat ->
  substring 0 n s ++ substring n (String.length s - n) s = s.
Proof.
  induction s as [|c s IH]; intros n Hn.
  - destruct n; reflexivity.
  - destruct n as [|n].
    + rewrite Nat.sub_0_r, substring_all. reflexivity.
    + cbn [substring append String.length Nat.sub]. simpl in Hn.
      rewrite IH by lia. reflexivity.
Qed.

Lemma rfind_get s c :
  0 <= rfind s c -> get (Z.to_nat (rfind s c)) s = Some c.
Proof.
  induction s as [|a s IH]; cbn [rfind]; [lia|]. cbv zeta.
  destruct (0 <=? rfind s c) eqn:E.
  - intros _. apply Z.leb_le in E.
    replace (Z.to_nat (rfind s c + 1)) with (S (Z.to_nat (rfind s c))) by lia.
    simpl. now apply IH.
  - destruct (Ascii.eqb_spec a c) as [->|Hac]; [reflexivity | lia].
Qed.

Lemma substring_head s : forall n m c,
  get n s = Some c -> exists rest, substring n (S m) s = String c rest.
Proof.
  induction s as [|a s IH]; intros n m c H; [destruct n; discriminate H|].
  destruct n as [|n]; simpl in H.
  - injection H as ->. simpl. eauto.
  - simpl. now apply IH.
Qed.

(** X18: [os.path.splitext] loses nothing and invents nothing: the file name
    and the extension that the checks put into their messages concatenate
    back to the path, and the extension is empty or starts with a dot. *)
Theorem splitext_round_trip filepath :
  fst (os_path_splitext filepath) ++ snd (os_path_splitext filepath) = filepath /\
  (snd (os_path_splitext filepath) = "" \/ starts_with "." (snd (os_path_splitext filepath))).
Proof.
  unfold os_path_splitext. cbv zeta.
  pose proof (rfind_range filepath ".") as Hd.
  pose proof (rfind_range filepath "/") as Hs.
  destruct ((rfind filepath "/" <? rfind filepath ".") && _) eqn:E.
  - apply andb_true_iff in E. destruct E as [E _]. apply Z.ltb_lt in E.
    cbn [fst snd]. unfold slice_to, slice_from. split.
    + apply substring_split. lia.
    + right.
      assert (Hg : get (Z.to_nat (rfind filepath ".")) filepath = Some "."%char)
        by (apply rfind_get; lia).
      destruct (String.length filepath - Z.to_nat (rfind filepath "."))%nat as [|m] eqn:Em;
        [lia|].
      destruct (substring_head filepath _ m _ Hg) as [rest ->].
      exists rest. reflexivity.
  - cbn [fst snd]. split; [|now left].
    clear. induction filepath as [|c s IH]; simpl; [reflexivity | now rewrite IH].
Qed.

(** ** The records of a checked file, all of them *)

Ltac table_forms :=
  unfold format_records, transparency_records, dimension_record, string_in;
  cbn [rule_of requirement_of String.eqb Ascii.eqb Bool.eqb title sizes names_file
       extensions format_name opacity existsb fst snd];
  rewrite ?orb_false_r.

(** A rule check adds the format diagnostic, the transparency diagnostic and
    the dimension diagnostic of its role, in this order, and nothing else. *)
Lemma rule_report_table asset env im filepath width height :
  In asset art_assets ->
  report (exec (snd asset env im filepath width height) fresh) =
  (format_records (fst asset) filepath
   ++ transparency_records (fst asset) (has_transparency env im) filepath
   ++ [dimension_record (fst asset) filepath (width, height)])%list.
Proof.
  unfold art_assets. simpl.
  intros [<- | [<- | [<- | [<- | [<- | []]]]]]; cbn [fst snd].
  - rewrite check_icon_report. table_forms. reflexivity.
  - rewrite check_fanart_report. table_forms. reflexivity.
  - rewrite check_screenshot_report. table_forms. reflexivity.
  - rewrite check_banner_report. table_forms. reflexivity.
  - rewrite check_clearlogo_report. table_forms.
    destruct (has_transparency env im); reflexivity.
Qed.

Ltac no_such_record :=
  let H := fresh "H" in
  intros H; simpl in H;
  repeat match goal with
         | H : _ \/ _ |- _ => destruct H as [H | H]
         | H : False |- _ => destruct H
         end;
  discriminate H.

(** The records before the dimension diagnostic are of another kind: none of
    them is a dimension diagnostic of the role, for any size. *)
Lemma others_not_dimension asset env kodi_version fallback transparent filepath r :
  In asset art_assets ->
  In r (exists_records env (fst asset) kodi_version fallback
        ++ format_records (fst asset) filepath
        ++ transparency_records (fst asset) transparent filepath)%list ->
  ~ is_dimension_record (fst asset) filepath r.
Proof.
  intros Hin Hr [wh ->]. revert Hr.
  unfold art_assets in Hin. simpl in Hin.
  destruct Hin as [<- | [<- | [<- | [<- | [<- | []]]]]]; cbn [fst];
    unfold exists_records; table_forms;
    repeat match goal with
           | |- context [if ?b then _ else _] => destruct b
           end;
    no_such_record.
Qed.

(** C10: for a file that exists and opens, the records of the entry are the
    INFORMATION of the existence step (with the PROBLEM about the explicit
    declaration, if due), the format and the transparency PROBLEM of the
    role, if due, and then the dimension diagnostic: exactly one, since none
    of the records before it is a dimension diagnostic.  It is an
    INFORMATION when the size is one of the accepted ones and a PROBLEM
    otherwise; the entry adds at least two records. *)
Theorem C10_one_dimension_diagnostic env asset parsed_xml addon_path kodi_version
    l1 image l2 im s :
  In asset art_assets ->
  snd (_assests (fst asset) parsed_xml addon_path) = (l1 ++ Some image :: l2)%list ->
  image <> "" ->
  isfile env (os_path_join addon_path image) = true ->
  image_open env (os_path_join addon_path image) = Some im ->
  let role := fst asset in
  let filepath := os_path_join addon_path image in
  let d := dimension_record role filepath (size im) in
  let others :=
    (exists_records env role kodi_version (fst (_assests role parsed_xml addon_path))
     ++ format_records role filepath
     ++ transparency_records role (has_transparency env im) filepath)%list in
  report (exec (_check_image_type env asset parsed_xml addon_path kodi_version) s) =
  (report (exec (entries env asset parsed_xml addon_path kodi_version l1) s)
   ++ (others ++ [d])
   ++ report (exec (entries env asset parsed_xml addon_path kodi_version l2) fresh))%list
  /\ is_dimension_record role filepath d
  /\ (forall r, In r others -> ~ is_dimension_record role filepath r)
  /\ log_level d = (if size_in (size im) (accepted_sizes role) then INFORMATION else PROBLEM)
  /\ (2 <= length (others ++ [d]))%nat.
Proof.
  intros Hin E Hne Hf Ho role filepath d others.
  split; [|split; [|split; [|split]]].
  - pose proof (emits_art_assets asset env im filepath (fst (size im)) (snd (size im)) Hin)
      as Hcb.
    unfold exec at 1. rewrite (check_image_type_at _ _ _ _ _ _ _ _ _ E).
    rewrite (emits_entries asset env parsed_xml addon_path kodi_version l2 Hin).
    cbn [snd]. unfold app_state. cbn [report].
    unfold exec at 1. unfold filepath in Hcb.
    rewrite (body_decoded _ _ _ _ _ _ _ _ _ _ Hne Hf Ho Hcb).
    cbn [snd report]. fold filepath.
    rewrite (rule_report_table asset env im filepath _ _ Hin).
    rewrite <- surjective_pairing. unfold others, d, role.
    repeat (rewrite <- ?app_assoc, <- ?app_comm_cons). reflexivity.
  - exists (size im). reflexivity.
  - intros r Hr. unfold others, role in Hr.
    apply (others_not_dimension asset env kodi_version _ _ filepath r Hin Hr).
  - unfold d, dimension_record, accepted_sizes.
    destruct (size_in (size im) (sizes (rule_of role))); reflexivity.
  - unfold others, exists_records. rewrite length_app. simpl. lia.
Qed.

Lemma C10_one_dimension_diagnostic_witness :
  let d := mkRecord INFORMATION
             "Screenshot /addons/plugin.video.demo/resources/shot dimensions are fine 1280x720" in
  let others :=
    [mkRecord INFORMATION "Image screenshot exists";
     mkRecord PROBLEM
       "Screenshot should be in the jpeg format, /addons/plugin.video.demo/resources/shot is .png.";
     mkRecord PROBLEM
       "Screenshot should be solid. /addons/plugin.video.demo/resources/shot has transparency."] in
  report (exec (_check_image_type Demo.env ("screenshot", _check_screenshot) Demo.parsed_xml
                  Demo.addon_path Demo.leia) fresh) =
  ([] ++ (others ++ [d])
      ++ [mkRecord WARNING "Empty image tag found for screenshot";
          mkRecord PROBLEM "screenshot does not exist at specified path."])%list
  /\ is_dimension_record "screenshot" "/addons/plugin.video.demo/resources/shot.png" d
  /\ (forall r, In r others ->
                ~ is_dimension_record "screenshot"
                    "/addons/plugin.video.demo/resources/shot.png" r)
  /\ log_level d = INFORMATION
  /\ (2 <= length (others ++ [d]))%nat.
Proof.
  apply (C10_one_dimension_diagnostic Demo.env ("screenshot", _check_screenshot)
           Demo.parsed_xml Demo.addon_path Demo.leia
           [] "resources/shot.png" [None; Some "resources/missing.jpg"]
           (mkImage (1280, 720) "RGBA") fresh).
  - simpl. auto.
  - reflexivity.
  - discriminate.
  - reflexivity.
  - reflexivity.
Defined.
